(** * benningsolarvalues: the collector's parser, publisher and scheduler

    A shallow embedding of [app.py]: the record parser with its unit rules
    (the body of the [for] loop of [do_repeat]), the MQTT connect and publish
    steps ([mqtt_connect], the tail of [do_repeat]) and the fixed-interval
    scheduler ([every]).

    Conventions.
    - A Python [str] is a [string]; one [ascii] stands for one code point
      below 256, so U+2028 and U+2029 (the only line boundaries of
      [str.splitlines] above that range) do not occur.
    - A raised exception is a value of [exn], which ranges over instances of
      [Exception]; a computation that may raise returns a [result].
    - [float] arithmetic is kept behind the interface [PyFloat]; the
      statements hold for every implementation of it, and [binary64] is the
      IEEE 754 one used to run concrete rows.
    - [every] threads the schedule in exact integer arithmetic ([advance]):
      what it says about the order of events, the calls made and the
      exceptions caught does not depend on the value of the fire time. The
      arithmetic of line 152 as the interpreter does it, in binary64 with
      rounding, is [Clock.advance64]; the two agree where no operation
      rounds ([Clock.no_rounding]). *)

From Stdlib Require Import ZArith List String Ascii Bool Lia Floats.
Import ListNotations.

Local Open Scope string_scope.
Local Open Scope Z_scope.

(** ** Exceptions and results *)

Inductive exn : Type :=
| IndexError                      (* list index out of range *)
| ValueError                      (* could not convert string to float *)
| ZeroDivisionError               (* float floor division by zero *)
| ConnectionError                 (* requests.exceptions.ConnectionError *)
| Error (msg : string)            (* class Error(Exception) of app.py *)
| OtherException (name : string). (* any other subclass of Exception *)

Inductive result (A : Type) : Type :=
| Ok (a : A)
| Raise (e : exn).

Arguments Ok {A} a.
Arguments Raise {A} e.

Definition rbind {A B : Type} (r : result A) (k : A -> result B) : result B :=
  match r with
  | Ok a => k a
  | Raise e => Raise e
  end.

Declare Scope py_scope.
Delimit Scope py_scope with py.
Notation "x <- c ;; k" := (rbind c (fun x => k))
  (at level 61, c at next level, right associativity) : py_scope.

Definition is_ok {A : Type} (r : result A) : bool :=
  match r with
  | Ok _ => true
  | Raise _ => false
  end.

(** ** The string methods the parser calls *)

Module Str.

Definition LF : ascii := "010"%char.
Definition CR : ascii := "013"%char.
Definition semicolon : ascii := ";"%char.
Definition dquote : ascii := "034"%char.

(** The line boundaries of [str.splitlines] below U+0100: LF, VT, FF, CR,
    FS, GS, RS and NEL. *)
Definition is_linebreak (c : ascii) : bool :=
  let n := N_of_ascii c in
  ((10 <=? n) && (n <=? 13) || (28 <=? n) && (n <=? 30) || (n =? 133))%N.

(** Puts [c] in front of the first string of [l]. *)
Definition cons_char (c : ascii) (l : list string) : list string :=
  match l with
  | [] => [String c ""]
  | f :: fs => String c f :: fs
  end.

(** [s.splitlines()]: a CR LF pair is one boundary, and no line follows the
    boundary that ends the string. *)
Fixpoint splitlines (s : string) : list string :=
  match s with
  | EmptyString => []
  | String c s' =>
      if is_linebreak c then
        match s' with
        | String c' s'' =>
            if (Ascii.eqb c CR && Ascii.eqb c' LF)%bool
            then "" :: splitlines s''
            else "" :: splitlines s'
        | EmptyString => [""]
        end
      else cons_char c (splitlines s')
  end.

(** [s.split(sep)] for a one-character separator: one field more than there
    are separators. *)
Fixpoint split (sep : ascii) (s : string) : list string :=
  match s with
  | EmptyString => [""]
  | String c s' =>
      if Ascii.eqb c sep then "" :: split sep s'
      else cons_char c (split sep s')
  end.

Fixpoint lstrip (c : ascii) (s : string) : string :=
  match s with
  | EmptyString => ""
  | String a s' => if Ascii.eqb a c then lstrip c s' else s
  end.

Fixpoint rstrip (c : ascii) (s : string) : string :=
  match s with
  | EmptyString => ""
  | String a s' =>
      match rstrip c s' with
      | EmptyString => if Ascii.eqb a c then "" else String a ""
      | r => String a r
      end
  end.

(** [s.strip(c)] for a one-character set. *)
Definition strip (c : ascii) (s : string) : string := rstrip c (lstrip c s).

End Str.

(** ** Floats *)

(** What the parser asks of [float]: the conversion [float(s)], where [None]
    is the [ValueError] of a string that is no number, the product of two
    floats, and the conversion of an [int] operand ([value * 1000]). *)
Class PyFloat : Type := {
  pyfloat : Type;
  float_of_str : string -> option pyfloat;
  float_mul : pyfloat -> pyfloat -> pyfloat;
  float_of_int : Z -> pyfloat
}.

(** ** The record parser (do_repeat, lines 172-211) *)

Section Parser.

Context {PF : PyFloat}.

Local Open Scope py_scope.

(** The dict appended to [allmetrics]. *)
Record Metric : Type := {
  m_id : string;
  m_descriptor : string;
  m_type : string;
  m_value : pyfloat;
  m_description : string;
  m_unit : string;
  m_unit_zabbix : string
}.

(** [v[i]] *)
Definition index (v : list string) (i : nat) : result string :=
  match nth_error v i with
  | Some x => Ok x
  | None => Raise IndexError
  end.

(** [float(s)] *)
Definition to_float (s : string) : result pyfloat :=
  match float_of_str s with
  | Some x => Ok x
  | None => Raise ValueError
  end.

(** Lines 181-184: handling multipliers and values. *)
Definition scaled_value (rawvalue multiplier : string) : result pyfloat :=
  if negb (multiplier =? "1.000000")%string then
    a <- to_float rawvalue ;;
    b <- to_float multiplier ;;
    Ok (float_mul a b)
  else to_float rawvalue.

(** The three variables the unit rules read and assign. *)
Record locals : Type := {
  value : pyfloat;
  unit : string;
  unit_zabbix : string
}.

(** Lines 189-192. *)
Definition rule_mA (l : locals) : locals :=
  if (unit l =? "mA")%string then
    {| value := float_mul (value l) (float_of_int 1000);
       unit := "A";
       unit_zabbix := "A" |}
  else l.

(** Lines 194-195. *)
Definition rule_kWh (l : locals) : locals :=
  if (unit l =? "kWh")%string then
    {| value := value l; unit := unit l; unit_zabbix := "!kWh" |}
  else l.

(** Lines 197-200. *)
Definition rule_h (l : locals) : locals :=
  if (unit l =? "h")%string then
    {| value := float_mul (value l) (float_of_int 3600);
       unit := "s";
       unit_zabbix := "s" |}
  else l.

Definition LastSystemBackupTimestamp : string :=
  "SystemState_persistent.Global.LastSystemBackupTimestamp".

Definition LastSendProtocolTimestamp : string :=
  "SystemState_persistent.SolarPortal.LastSendProtocolTimestamp".

(** Lines 202-203 and 205-206, one rule per descriptor name. *)
Definition rule_timestamp (name descriptor : string) (l : locals) : locals :=
  if (descriptor =? name)%string then
    {| value := value l; unit := unit l; unit_zabbix := "unixtime" |}
  else l.

(** Lines 189-200: the rules on the unit, in the order of the source. *)
Definition unit_rules (l : locals) : locals :=
  rule_h (rule_kWh (rule_mA l)).

(** Lines 202-206: the rules on the descriptor. *)
Definition timestamp_rules (descriptor : string) (l : locals) : locals :=
  rule_timestamp LastSendProtocolTimestamp descriptor
    (rule_timestamp LastSystemBackupTimestamp descriptor l).

(** Lines 189-206 applied to the variables as they stand. *)
Definition apply_rules (descriptor : string) (l : locals) : locals :=
  timestamp_rules descriptor (unit_rules l).

(** Lines 187-206: [unit_zabbix] starts as a copy of the unit, then the
    rules run. *)
Definition normalize (descriptor u : string) (x : pyfloat) : locals :=
  apply_rules descriptor {| value := x; unit := u; unit_zabbix := u |}.

Definition is_timestamp (descriptor : string) : bool :=
  ((descriptor =? LastSystemBackupTimestamp)
   || (descriptor =? LastSendProtocolTimestamp))%string.

(** The body of the loop for one line (lines 176-208). *)
Definition process_line (line : string) : result Metric :=
  let v := Str.split Str.semicolon line in
  rawvalue <- index v 3 ;;
  multiplier <- index v 5 ;;
  x <- scaled_value rawvalue multiplier ;;
  u <- index v 6 ;;
  descriptor <- index v 1 ;;
  let l := normalize descriptor u x in
  id <- index v 0 ;;
  type <- index v 2 ;;
  description <- index v 4 ;;
  Ok {| m_id := id;
        m_descriptor := descriptor;
        m_type := type;
        m_value := value l;
        m_description := Str.strip Str.dquote description;
        m_unit := unit l;
        m_unit_zabbix := unit_zabbix l |}.

(** The [for] loop (lines 174-209) from a given [allmetrics] and [linecnt]. *)
Fixpoint process_lines (lines : list string) (allmetrics : list Metric)
  (linecnt : Z) : result (list Metric * Z) :=
  match lines with
  | [] => Ok (allmetrics, linecnt)
  | line :: rest =>
      metric <- process_line line ;;
      process_lines rest (allmetrics ++ [metric])%list (linecnt + 1)
  end.

(** Lines 172-209 on the response text. *)
Definition parse (text : string) : result (list Metric * Z) :=
  process_lines (Str.splitlines text) [] 0.

End Parser.

(** ** IEEE 754 binary64 as an implementation of [PyFloat] *)

Module Binary64.

Definition digit_of (c : ascii) : option Z :=
  let n := N_of_ascii c in
  if ((48 <=? n) && (n <=? 57))%N then Some (Z.of_N n - 48) else None.

(** Reads the digits at the front of [s] onto [acc]: the number read, how
    many digits it took, and the rest of the string. *)
Fixpoint read_digits (s : string) (acc : Z) (n : Z) : Z * Z * string :=
  match s with
  | EmptyString => (acc, n, "")
  | String c s' =>
      match digit_of c with
      | Some d => read_digits s' (10 * acc + d) (n + 1)
      | None => (acc, n, s)
      end
  end.

Definition read_sign (s : string) : bool * string :=
  match s with
  | String c s' =>
      if Ascii.eqb c "-" then (true, s')
      else if Ascii.eqb c "+" then (false, s')
      else (false, s)
  | EmptyString => (false, s)
  end.

(** A plain decimal literal, [[+-]digits[.digits]] with a digit on at least
    one side of the point, as its sign, the integer its digits spell and the
    number of digits after the point. *)
Definition read_decimal (s : string) : option (bool * Z * Z) :=
  let (neg, s1) := read_sign s in
  let '(i, ni, s2) := read_digits s1 0 0 in
  match s2 with
  | EmptyString => if ni =? 0 then None else Some (neg, i, 0)
  | String c s3 =>
      if Ascii.eqb c "." then
        let '(m, nf, s4) := read_digits s3 i 0 in
        match s4 with
        | EmptyString => if ni + nf =? 0 then None else Some (neg, m, nf)
        | String _ _ => None
        end
      else None
  end.

(** The binary64 number nearest to [m / 10^k] (ties to even), signed. *)
Definition round_decimal (neg : bool) (m k : Z) : float :=
  match m, 10 ^ k with
  | Zpos p, Zpos q =>
      SF2Prim (SFdiv prec emax (S754_finite neg p 0) (S754_finite false q 0))
  | _, _ => SF2Prim (S754_zero neg)
  end.

(** [float(s)] on plain decimal literals, where it is the correctly rounded
    value of the literal. The other spellings [float] accepts (an exponent,
    inf, nan, surrounding blanks, digit separators) are not read here. *)
Definition of_str (s : string) : option float :=
  match read_decimal s with
  | Some (neg, m, k) => Some (round_decimal neg m k)
  | None => None
  end.

(** An [int] operand becomes the nearest binary64 number. *)
Definition of_int (z : Z) : float :=
  match z with
  | Z0 => SF2Prim (S754_zero false)
  | Zpos p => SF2Prim (binary_normalize prec emax (Zpos p) 0 false)
  | Zneg p => SF2Prim (binary_normalize prec emax (Zneg p) 0 false)
  end.

End Binary64.

#[export] Instance binary64 : PyFloat := {|
  pyfloat := float;
  float_of_str := Binary64.of_str;
  float_mul := PrimFloat.mul;
  float_of_int := Binary64.of_int
|}.

(** ** The worker: configuration, state, and what it does to the world *)

(** The keys of [config] the worker reads. *)
Record Config : Type := {
  benning_host : string;
  benning_username : string;
  benning_password : string;
  mqtt_host : string;
  mqtt_topic : string;
  repeat : Z
}.

(** The attributes of a [BenningSolarMetricsWorker]: [mqtt_client] counts the
    [mqtt.Client] objects made so far (the current handle is the last one). *)
Record Worker : Type := {
  mqtt_client : nat;
  mqtt_connected : bool
}.

Inductive level : Type := INFO | WARNING | ERROR.

(** What [requests.get] does: raise, or return a response. *)
Inductive http_outcome : Type :=
| HttpRaises (e : exn)
| HttpResponse (status_code : Z) (text : string).

(** What the device and the broker answer during one call of [do_repeat]:
    the outcome of [requests.get], and, for [connect] and [publish] of the
    MQTT client, the exception raised if any. *)
Record Cycle : Type := {
  http : http_outcome;
  connect : option exn;
  publish : option exn
}.

(** One pass of the loop of [every] as the clock sees it: [time.time()] when
    the sleep is computed (line 145) and when the schedule is advanced
    (line 152), and the answers given to the task in between. *)
Record Tick : Type := {
  now_before : Z;
  cycle : Cycle;
  now_after : Z
}.

(** The type of what a method without [return] gives back. *)
Definition NoneType : Type := Datatypes.unit.

Section Worker.

Context {PF : PyFloat}.

(** The calls that leave the process, in the order they happen. [Call] marks
    the call [task()] of line 147; the payload of a publish is the list that
    [json.dumps] serialises; a log entry keeps its format string. *)
Inductive event : Type :=
| Log (lv : level) (msg : string)
| LogException (msg : string) (e : exn)
| HttpGet (url user password : string)
| MqttConnect (host : string) (port keepalive : Z)
| MqttPublish (topic : string) (payload : list Metric)
| Sleep (seconds : Z)
| Call.

(** A method of the worker: it may raise, it may assign attributes, and it
    leaves a trace. Assignments and trace survive a raise. *)
Definition Act (A : Type) : Type := Worker -> result A * Worker * list event.

Definition ret {A : Type} (a : A) : Act A := fun w => (Ok a, w, []).

Definition raise {A : Type} (e : exn) : Act A := fun w => (Raise e, w, []).

Definition bind {A B : Type} (c : Act A) (k : A -> Act B) : Act B :=
  fun w =>
    match c w with
    | (Ok a, w1, t1) => let '(r, w2, t2) := k a w1 in (r, w2, (t1 ++ t2)%list)
    | (Raise e, w1, t1) => (Raise e, w1, t1)
    end.

(** [try: c] with the outcome handed to the [except] and [else] clauses. *)
Definition attempt {A : Type} (c : Act A) : Act (result A) :=
  fun w => let '(r, w1, t1) := c w in (Ok r, w1, t1).

Definition lift {A : Type} (r : result A) : Act A := fun w => (r, w, []).

Definition emit (ev : event) : Act NoneType := fun w => (Ok tt, w, [ev]).

Definition get_connected : Act bool := fun w => (Ok (mqtt_connected w), w, []).

Definition set_connected (b : bool) : Act NoneType :=
  fun w => (Ok tt, {| mqtt_client := mqtt_client w; mqtt_connected := b |}, []).

(** [self.mqtt_client = mqtt.Client()] *)
Definition new_client : Act NoneType :=
  fun w => (Ok tt, {| mqtt_client := S (mqtt_client w);
                      mqtt_connected := mqtt_connected w |}, []).

Declare Scope act_scope.
Delimit Scope act_scope with act.
Notation "x <- c ;; k" := (bind c (fun x => k))
  (at level 61, c at next level, right associativity) : act_scope.
Notation "c ;; k" := (bind c (fun _ => k))
  (at level 61, right associativity) : act_scope.

Local Open Scope act_scope.

Definition logging (lv : level) (msg : string) : Act NoneType := emit (Log lv msg).

(** [requests.get(url, auth=auth)] *)
Definition requests_get (url user password : string) (answer : http_outcome)
  : Act (Z * string) :=
  emit (HttpGet url user password) ;;
  match answer with
  | HttpRaises e => raise e
  | HttpResponse status_code text => ret (status_code, text)
  end.

(** [self.mqtt_client.connect(host, port, keepalive)] *)
Definition client_connect (host : string) (port keepalive : Z)
  (answer : option exn) : Act NoneType :=
  emit (MqttConnect host port keepalive) ;;
  match answer with
  | Some e => raise e
  | None => ret tt
  end.

(** [self.mqtt_client.publish(topic, json.dumps(allmetrics))] *)
Definition client_publish (topic : string) (allmetrics : list Metric)
  (answer : option exn) : Act NoneType :=
  emit (MqttPublish topic allmetrics) ;;
  match answer with
  | Some e => raise e
  | None => ret tt
  end.

(** Lines 124-137. *)
Definition mqtt_connect (cfg : Config) (answer : option exn) : Act NoneType :=
  new_client ;;
  r <- attempt (client_connect (mqtt_host cfg) 1883 60 answer) ;;
  match r with
  | Raise error =>
      logging ERROR "error occurred connecting to mqtt: {}" ;;
      set_connected false
  | Ok _ => set_connected true
  end.

Definition is_ConnectionError (e : exn) : bool :=
  match e with
  | ConnectionError => true
  | _ => false
  end.

Definition url_of (cfg : Config) : string :=
  "http://" ++ benning_host cfg
    ++ "/getallentries.cgi?firstOid=10000&lastOid=20000".

(** Lines 154-221. *)
Definition do_repeat (cfg : Config) (c : Cycle) : Act NoneType :=
  let url := url_of cfg in
  logging INFO "fetch all values from {}" ;;
  r <- attempt (requests_get url (benning_username cfg)
                  (benning_password cfg) (http c)) ;;
  match r with
  | Raise error =>
      if is_ConnectionError error
      then logging ERROR "received error during http fetch: {}"
      else raise error
  | Ok (status_code, text) =>
      if status_code =? 200 then
        parsed <- lift (parse text) ;;
        let '(allmetrics, linecnt) := parsed in
        logging INFO "processed {} values" ;;
        connected <- get_connected ;;
        if connected : bool then
          client_publish (mqtt_topic cfg) allmetrics (publish c)
        else
          logging WARNING
            "mqtt is not connected, trying reconnect in order to be able to publish next time" ;;
          mqtt_connect cfg (connect c)
      else raise (Error ("error fetching data: " ++ text))
  end.

(** Line 152: [next_time += (time.time() - next_time) // delay * delay + delay],
    where [//] raises on a zero divisor, read in exact arithmetic on whole
    numbers (no rounding). [Clock.advance64] below is the same line in the
    binary64 arithmetic of [float]. *)
Definition advance (delay next_time now : Z) : result Z :=
  if delay =? 0 then Raise ZeroDivisionError
  else Ok (next_time + ((now - next_time) / delay * delay + delay)).

(** Lines 145-152: one pass of the [while True] loop. *)
Definition every_iteration (delay : Z) (task : Cycle -> Act NoneType) (t : Tick)
  (next_time : Z) : Act Z :=
  emit (Sleep (Z.max 0 (next_time - now_before t))) ;;
  r <- attempt (emit Call ;; task (cycle t)) ;;
  match r with
  | Raise e => emit (LogException "Problem while executing repetitive task." e)
  | Ok _ => ret tt
  end ;;
  lift (advance delay next_time (now_after t)).

(** Lines 141-152 over the passes in [ticks], a finite stretch of the endless
    loop: the value of [next_time] they leave, or the exception that ended
    the loop before they were through. *)
Fixpoint every (delay : Z) (task : Cycle -> Act NoneType) (ticks : list Tick)
  (next_time : Z) : Act Z :=
  match ticks with
  | [] => ret next_time
  | t :: rest =>
      next_time' <- every_iteration delay task t next_time ;;
      every delay task rest next_time'
  end.

(** Lines 120-122: [__init__], with [start] the clock reading of line 143. *)
Definition BenningSolarMetricsWorker (cfg : Config) (answer : option exn)
  (start : Z) (ticks : list Tick) : Act Z :=
  mqtt_connect cfg answer ;;
  every (repeat cfg) (do_repeat cfg) ticks start.

(** The worker before [__init__] has assigned anything. *)
Definition blank : Worker := {| mqtt_client := 0; mqtt_connected := false |}.

Definition is_publish (ev : event) : bool :=
  match ev with
  | MqttPublish _ _ => true
  | _ => false
  end.

Definition is_connect (ev : event) : bool :=
  match ev with
  | MqttConnect _ _ _ => true
  | _ => false
  end.

Definition is_call (ev : event) : bool :=
  match ev with
  | Call => true
  | _ => false
  end.

Definition is_warning (ev : event) : bool :=
  match ev with
  | Log WARNING _ => true
  | _ => false
  end.

Definition count (p : event -> bool) (trace : list event) : nat :=
  List.length (filter p trace).

(** The trace every call of [do_repeat] starts with (lines 157-159). *)
Definition fetch_trace (cfg : Config) : list event :=
  [Log INFO "fetch all values from {}";
   HttpGet (url_of cfg) (benning_username cfg) (benning_password cfg)].

(** The warning of line 217. *)
Definition reconnect_warning : event :=
  Log WARNING
    "mqtt is not connected, trying reconnect in order to be able to publish next time".

End Worker.

(** ** Reading a trace *)

Section Observations.

Context {PF : PyFloat}.

Definition is_http_get (ev : event) : bool :=
  match ev with
  | HttpGet _ _ _ => true
  | _ => false
  end.

(** The topic and payload of the calls of [publish], in the order of the
    calls. *)
Fixpoint published (trace : list event) : list (string * list Metric) :=
  match trace with
  | [] => []
  | MqttPublish topic payload :: rest => (topic, payload) :: published rest
  | _ :: rest => published rest
  end.

(** The requests sent to the device, in the order they are sent. *)
Fixpoint requested (trace : list event) : list (string * string * string) :=
  match trace with
  | [] => []
  | HttpGet url user password :: rest =>
      (url, user, password) :: requested rest
  | _ :: rest => requested rest
  end.

End Observations.

(** ** Start of the process (lines 43-57, 75-113, 226-236) *)

Module Startup.

(** [logging.DEBUG] and [logging.INFO]. *)
Definition DEBUG : Z := 10.
Definition INFO : Z := 20.

(** What [set_up_logging] installs: [logging.basicConfig] with a level and a
    format, or a syslog handler on the root logger with its socket and the
    format of its formatter. *)
Inductive log_setup : Type :=
| BasicConfig (level : Z) (format : string)
| SysLog (level : Z) (address : string) (format : string).

(** Lines 48-57: the module's [loglevel] after [parse_arguments], given
    whether [-d] was passed. *)
Definition parse_arguments (debug : bool) (loglevel : Z) : Z :=
  if debug then DEBUG else loglevel.

(** Lines 75-113, with [platform] for [sys.platform] and [basename] for
    [os.path.basename(__file__)]. *)
Definition set_up_logging (loglevel : Z) (log_to_foreground : bool)
  (program_name : option string) (platform basename : string) : log_setup :=
  if log_to_foreground then
    BasicConfig loglevel "%(asctime)s %(levelname)s:%(message)s"
  else
    let syslog_socket :=
      if ("darwin" =? platform)%string then "/var/run/syslog"
      else "/dev/log" in
    let syslog_format_string :=
      "[%(process)d]: [%(levelname)s][%(funcName)s] %(message)s" in
    let program_name :=
      match program_name with
      | None => basename
      | Some name => name
      end in
    SysLog loglevel syslog_socket
      (program_name ++ " " ++ syslog_format_string).

(** Lines 227-233: from the command line to the logging set up, with
    [isatty] for [sys.stdin.isatty()]. *)
Definition main_logging (debug isatty : bool) (platform basename : string)
  : log_setup :=
  let loglevel := parse_arguments debug INFO in
  let log_to_foreground := true in
  let log_to_foreground := if isatty then true else log_to_foreground in
  let loglevel :=
    if isatty then (if INFO <=? loglevel then INFO else loglevel)
    else loglevel in
  set_up_logging loglevel log_to_foreground None platform basename.

End Startup.

(** ** Line 152 in binary64 *)

(** [time.time()] returns a [float], so the arithmetic of line 152 is that of
    binary64: every operation rounds. [advance] above is its exact reading,
    which [every] threads through the passes; [advance64] is the line as the
    interpreter computes it, with the floor division of [float] written out
    after CPython's [float_floor_div]. *)
Module Clock.

Local Open Scope float_scope.









End Clock.

(** ** A configuration and a response to run the worker on *)

Module Sample.

Definition cfg : Config :=
  {| benning_host := "inverter";
     benning_username := "user";
     benning_password := "secret";
     mqtt_host := "broker";
     mqtt_topic := "benning/values";
     repeat := 10 |}.

(** The first row of the data format quoted in [do_repeat], and a newline. *)
Definition body : string :=
  "11305;SystemState.Global.Measurement.ACFrequency;F;50.023193;"
    ++ String Str.dquote "AC Netz Frequenz"
    ++ String Str.dquote ";1.000000;Hz;2;1;2;1;0.000000;0.000000;0;0;0"
    ++ String Str.LF "".

(** The device answers with [status_code] and [text]; the broker accepts
    whatever it is asked. *)
Definition answers (status_code : Z) (text : string) : Cycle :=
  {| http := HttpResponse status_code text;
     connect := None;
     publish := None |}.

Definition tick (before : Z) (c : Cycle) (after : Z) : Tick :=
  {| now_before := before; cycle := c; now_after := after |}.

End Sample.

(** * Properties *)

(** ** Strings *)

Lemma split_nonempty (sep : ascii) (s : string) : Str.split sep s <> [].
Proof.
  destruct s as [|c s]; simpl; [discriminate|].
  destruct (Ascii.eqb c sep); [discriminate|].
  destruct (Str.split sep s); discriminate.
Qed.

Lemma split_empty_line : Str.split Str.semicolon "" = [""].
Proof. reflexivity. Qed.

(** The lines after the first are untouched by [cons_char]. *)
Lemma cons_char_tail (c : ascii) (l : list string) :
  tl (Str.cons_char c l) = tl l.
Proof. destruct l; reflexivity. Qed.

Lemma LF_is_linebreak : Str.is_linebreak Str.LF = true.
Proof. reflexivity. Qed.

Lemma splitlines_LF (s : string) :
  exists ls, Str.splitlines (String Str.LF s) = "" :: ls.
Proof.
  simpl. destruct s as [|c s]; [now exists []|].
  eexists; reflexivity.
Qed.

Lemma splitlines_nobreak (c : ascii) (s : string) :
  Str.is_linebreak c = false ->
  Str.splitlines (String c s) = Str.cons_char c (Str.splitlines s).
Proof. intros H. simpl. now rewrite H. Qed.

(** A boundary ends the line; a line feed right after a carriage return
    belongs to the same boundary. *)
Lemma splitlines_break (c : ascii) (s : string) :
  Str.is_linebreak c = true ->
  Str.splitlines (String c s) = "" :: Str.splitlines s
  \/ (c = Str.CR
      /\ exists s', s = String Str.LF s'
                    /\ Str.splitlines (String c s) = "" :: Str.splitlines s').
Proof.
  intros H. simpl. rewrite H. destruct s as [|c' s]; [now left|].
  destruct (Ascii.eqb c Str.CR && Ascii.eqb c' Str.LF)%bool eqn:E;
    [right|now left].
  apply andb_prop in E. destruct E as [E1 E2].
  apply Ascii.eqb_eq in E1, E2. subst c c'. split; [reflexivity|now exists s].
Qed.

Lemma in_tl {A : Type} (x : A) (l : list A) : In x (tl l) -> In x l.
Proof. destruct l; simpl; auto. Qed.

(** Two line feeds in a row leave an empty line behind, past the first line
    of the result, whatever stands before and after them. *)
Lemma splitlines_blank_line (n : nat) :
  forall p q : string,
    (String.length p <= n)%nat ->
    In "" (tl (Str.splitlines (p ++ String Str.LF (String Str.LF q)))).
Proof.
  induction n as [|n IH]; intros p q Hn.
  - destruct p; simpl in Hn; [|lia]. cbn [append].
    destruct (splitlines_break Str.LF (String Str.LF q) LF_is_linebreak)
      as [-> | (Hcr & _)]; [cbn [tl]|discriminate].
    destruct (splitlines_LF q) as [ls ->]. now left.
  - destruct p as [|c p]; [apply (IH ""%string q); simpl; lia|].
    simpl in Hn. cbn [append].
    destruct (Str.is_linebreak c) eqn:Hc.
    + destruct (splitlines_break c
                  (p ++ String Str.LF (String Str.LF q)) Hc)
        as [-> | (_ & s' & Hs & ->)]; cbn [tl].
      * apply in_tl, IH. lia.
      * destruct p as [|c' p]; cbn [append] in Hs.
        -- injection Hs as <-.
           destruct (splitlines_LF q) as [ls ->]. now left.
        -- injection Hs as _ <-. apply in_tl, IH. simpl in Hn. lia.
    + rewrite (splitlines_nobreak _ _ Hc), cons_char_tail. apply IH. lia.
Qed.

Lemma splitlines_has_blank_line (p q : string) :
  In "" (Str.splitlines (p ++ String Str.LF (String Str.LF q))).
Proof.
  pose proof (splitlines_blank_line (String.length p) p q (le_n _)) as H.
  destruct (Str.splitlines _); [contradiction|]. now right.
Qed.

Lemma nth_error_below {A : Type} (l : list A) (n i : nat) (x : A) :
  nth_error l n = Some x -> (i <= n)%nat -> exists y, nth_error l i = Some y.
Proof.
  intros Hn Hi.
  destruct (nth_error l i) as [y|] eqn:E; [now exists y|].
  apply nth_error_None in E.
  assert (n < List.length l)%nat by (apply nth_error_Some; congruence).
  lia.
Qed.

(** ** The unit rules and the record parser *)

Section ParserFacts.

Context {PF : PyFloat}.

(** A row with the fields of the data format, as [process_line] sees it. *)
Lemma process_line_fields (line f0 f1 f2 f3 f4 f5 f6 : string) :
  let v := Str.split Str.semicolon line in
  nth_error v 0 = Some f0 -> nth_error v 1 = Some f1 ->
  nth_error v 2 = Some f2 -> nth_error v 3 = Some f3 ->
  nth_error v 4 = Some f4 -> nth_error v 5 = Some f5 ->
  nth_error v 6 = Some f6 ->
  process_line line =
  rbind (scaled_value f3 f5) (fun x =>
    Ok {| m_id := f0;
          m_descriptor := f1;
          m_type := f2;
          m_value := value (normalize f1 f6 x);
          m_description := Str.strip Str.dquote f4;
          m_unit := unit (normalize f1 f6 x);
          m_unit_zabbix := unit_zabbix (normalize f1 f6 x) |}).
Proof.
  intros v H0 H1 H2 H3 H4 H5 H6. unfold process_line, index. fold v.
  rewrite H3, H5. cbn [rbind].
  destruct (scaled_value f3 f5) as [x|e]; cbn [rbind]; [|reflexivity].
  rewrite H6, H1, H0, H2, H4. reflexivity.
Qed.

(** Whatever [process_line] returns was built from seven fields of the line
    and a scaled value. *)
Lemma process_line_inv (line : string) (m : Metric) :
  process_line line = Ok m ->
  exists f0 f1 f2 f3 f4 f5 f6 x,
    let v := Str.split Str.semicolon line in
    (nth_error v 0 = Some f0 /\ nth_error v 1 = Some f1 /\
     nth_error v 2 = Some f2 /\ nth_error v 3 = Some f3 /\
     nth_error v 4 = Some f4 /\ nth_error v 5 = Some f5 /\
     nth_error v 6 = Some f6) /\
    scaled_value f3 f5 = Ok x /\
    m = {| m_id := f0;
           m_descriptor := f1;
           m_type := f2;
           m_value := value (normalize f1 f6 x);
           m_description := Str.strip Str.dquote f4;
           m_unit := unit (normalize f1 f6 x);
           m_unit_zabbix := unit_zabbix (normalize f1 f6 x) |}.
Proof.
  unfold process_line, index.
  set (v := Str.split Str.semicolon line).
  destruct (nth_error v 3) as [f3|] eqn:H3; cbn [rbind]; [|discriminate].
  destruct (nth_error v 5) as [f5|] eqn:H5; cbn [rbind]; [|discriminate].
  destruct (scaled_value f3 f5) as [x|e] eqn:Hx; cbn [rbind]; [|discriminate].
  destruct (nth_error v 6) as [f6|] eqn:H6; cbn [rbind]; [|discriminate].
  destruct (nth_error v 1) as [f1|] eqn:H1; cbn [rbind]; [|discriminate].
  destruct (nth_error v 0) as [f0|] eqn:H0; cbn [rbind]; [|discriminate].
  destruct (nth_error v 2) as [f2|] eqn:H2; cbn [rbind]; [|discriminate].
  destruct (nth_error v 4) as [f4|] eqn:H4; cbn [rbind]; [|discriminate].
  intros E. injection E as <-.
  exists f0, f1, f2, f3, f4, f5, f6, x. cbn zeta. repeat split; assumption.
Qed.

(** A line with fewer than seven fields has no metric. *)
Lemma process_line_short (line : string) :
  nth_error (Str.split Str.semicolon line) 6 = None ->
  is_ok (process_line line) = false.
Proof.
  intros H. destruct (process_line line) as [m|e] eqn:E; [|reflexivity].
  apply process_line_inv in E.
  destruct E as (f0 & f1 & f2 & f3 & f4 & f5 & f6 & x & Hf & _).
  cbn zeta in Hf. destruct Hf as (_ & _ & _ & _ & _ & _ & H6). congruence.
Qed.

Lemma process_line_empty : process_line "" = Raise IndexError.
Proof. reflexivity. Qed.

Lemma scaled_value_one (rawvalue : string) :
  scaled_value rawvalue "1.000000" = to_float rawvalue.
Proof. reflexivity. Qed.

Lemma scaled_value_other (rawvalue multiplier : string) :
  multiplier <> "1.000000" ->
  scaled_value rawvalue multiplier =
  rbind (to_float rawvalue) (fun a =>
    rbind (to_float multiplier) (fun b => Ok (float_mul a b))).
Proof.
  intros H. unfold scaled_value.
  destruct (String.eqb_spec multiplier "1.000000"); [contradiction|reflexivity].
Qed.

(** The unit rules in closed form. *)
Lemma unit_rules_eq (u t : string) (x : pyfloat) :
  unit_rules {| value := x; unit := u; unit_zabbix := t |} =
  {| value := if (u =? "mA")%string then float_mul x (float_of_int 1000)
              else if (u =? "h")%string then float_mul x (float_of_int 3600)
              else x;
     unit := if (u =? "mA")%string then "A"
             else if (u =? "h")%string then "s" else u;
     unit_zabbix := if (u =? "mA")%string then "A"
                    else if (u =? "kWh")%string then "!kWh"
                    else if (u =? "h")%string then "s" else t |}.
Proof.
  unfold unit_rules, rule_h, rule_kWh, rule_mA. cbn [unit value unit_zabbix].
  destruct (String.eqb_spec u "mA") as [->|HmA]; [reflexivity|].
  cbn [unit value unit_zabbix].
  destruct (String.eqb_spec u "kWh") as [->|HkWh]; [reflexivity|].
  cbn [unit value unit_zabbix].
  destruct (String.eqb_spec u "h") as [->|Hh]; reflexivity.
Qed.

Lemma timestamp_rules_eq (d : string) (l : locals) :
  timestamp_rules d l =
  {| value := value l;
     unit := unit l;
     unit_zabbix := if is_timestamp d then "unixtime" else unit_zabbix l |}.
Proof.
  unfold timestamp_rules, rule_timestamp, is_timestamp.
  destruct (d =? LastSystemBackupTimestamp)%string;
    destruct (d =? LastSendProtocolTimestamp)%string;
    destruct l; reflexivity.
Qed.

Lemma is_timestamp_iff (d : string) :
  is_timestamp d = true <->
  d = LastSystemBackupTimestamp \/ d = LastSendProtocolTimestamp.
Proof.
  unfold is_timestamp. rewrite orb_true_iff, !String.eqb_eq. reflexivity.
Qed.

(** Lines 187-206 in closed form. *)
Lemma normalize_eq (d u : string) (x : pyfloat) :
  normalize d u x =
  {| value := if (u =? "mA")%string then float_mul x (float_of_int 1000)
              else if (u =? "h")%string then float_mul x (float_of_int 3600)
              else x;
     unit := if (u =? "mA")%string then "A"
             else if (u =? "h")%string then "s" else u;
     unit_zabbix := if is_timestamp d then "unixtime"
                    else if (u =? "mA")%string then "A"
                    else if (u =? "kWh")%string then "!kWh"
                    else if (u =? "h")%string then "s" else u |}.
Proof.
  unfold normalize, apply_rules.
  rewrite unit_rules_eq, timestamp_rules_eq. reflexivity.
Qed.

(** The loop appends one metric per line, in the order of the lines, and
    stops at the first line that raises. *)
Lemma process_lines_ok (lines : list string) :
  forall (acc ms : list Metric) (n k : Z),
    process_lines lines acc n = Ok (ms, k) ->
    exists new,
      ms = (acc ++ new)%list /\
      k = n + Z.of_nat (List.length lines) /\
      Forall2 (fun line m => process_line line = Ok m) lines new.
Proof.
  induction lines as [|line rest IH]; intros acc ms n k H; cbn in H.
  - injection H as <- <-. exists []. rewrite app_nil_r.
    repeat split; [cbn; lia | constructor].
  - destruct (process_line line) as [m|e] eqn:E; cbn in H; [|discriminate].
    apply IH in H. destruct H as (new & -> & -> & HF).
    exists (m :: new). rewrite <- app_assoc. repeat split.
    + cbn [List.length]. lia.
    + constructor; assumption.
Qed.

Lemma process_lines_raise (lines : list string) :
  forall (acc : list Metric) (n : Z) (line : string),
    In line lines -> is_ok (process_line line) = false ->
    is_ok (process_lines lines acc n) = false.
Proof.
  induction lines as [|l rest IH]; intros acc n line Hin Hbad; [contradiction|].
  cbn. destruct (process_line l) as [m|e] eqn:E; cbn; [|reflexivity].
  destruct Hin as [->|Hin]; [rewrite E in Hbad; discriminate|].
  now apply (IH _ _ line).
Qed.

Lemma process_lines_all_ok (lines : list string) :
  forall (acc : list Metric) (n : Z),
    (forall line, In line lines -> is_ok (process_line line) = true) ->
    is_ok (process_lines lines acc n) = true.
Proof.
  induction lines as [|l rest IH]; intros acc n H; [reflexivity|].
  cbn. destruct (process_line l) as [m|e] eqn:E; cbn.
  - apply IH. intros line Hin. apply H. now right.
  - specialize (H l (or_introl eq_refl)). rewrite E in H. discriminate.
Qed.

End ParserFacts.

(** ** binary64 on the rows used below *)

Lemma binary64_five : Binary64.of_str "5.0" = Some 5%float.
Proof. vm_compute. reflexivity. Qed.

Lemma binary64_five_thousand :
  PrimFloat.mul 5%float (Binary64.of_int 1000) = 5000%float.
Proof. vm_compute. reflexivity. Qed.

(** Two floats with different bit patterns are different. *)
Lemma float_neq (x y : float) : Prim2SF x <> Prim2SF y -> x <> y.
Proof. intros H E. apply H. now rewrite E. Qed.

(** ** The multiplier (C1) *)

(** C1, as amended. For every row whose raw value converts (and whose
    multiplier converts, unless it is the string "1.000000"), the
    multiplier-scaled value is float(rawValue) * float(multiplier) when the
    multiplier string differs from "1.000000" and float(rawValue), with no
    product taken, when it is exactly "1.000000". The value of the metric is
    that scaled value for every unit other than "mA" and "h"; for "mA" it is
    the scaled value times 1000, for "h" the scaled value times 3600. *)
Theorem value_of_metric :
  forall (PF : PyFloat) (line rawvalue multiplier u : string) (r : pyfloat),
    let v := Str.split Str.semicolon line in
    nth_error v 3 = Some rawvalue ->
    nth_error v 5 = Some multiplier ->
    nth_error v 6 = Some u ->
    float_of_str rawvalue = Some r ->
    (multiplier = "1.000000" \/ exists f, float_of_str multiplier = Some f) ->
    exists (x : pyfloat) (m : Metric),
      scaled_value rawvalue multiplier = Ok x /\
      (multiplier = "1.000000" -> x = r) /\
      (multiplier <> "1.000000" ->
       exists f, float_of_str multiplier = Some f /\ x = float_mul r f) /\
      process_line line = Ok m /\
      m_value m =
        (if (u =? "mA")%string then float_mul x (float_of_int 1000)
         else if (u =? "h")%string then float_mul x (float_of_int 3600)
         else x).
Proof.
  intros PF line rawvalue multiplier u r v H3 H5 H6 Hr Hm.
  destruct (nth_error_below _ 6 0 _ H6) as [f0 H0]; [lia|].
  destruct (nth_error_below _ 6 1 _ H6) as [f1 H1]; [lia|].
  destruct (nth_error_below _ 6 2 _ H6) as [f2 H2]; [lia|].
  destruct (nth_error_below _ 6 4 _ H6) as [f4 H4]; [lia|].
  pose proof (process_line_fields line _ _ _ _ _ _ _ H0 H1 H2 H3 H4 H5 H6)
    as Hline.
  destruct (String.eqb_spec multiplier "1.000000") as [->|Hne].
  - exists r. eexists. rewrite scaled_value_one in *.
    unfold to_float in *. rewrite Hr in *. cbn [rbind] in Hline.
    repeat split; [congruence | exact Hline |].
    cbn [m_value]. rewrite normalize_eq. reflexivity.
  - destruct Hm as [Hm|[f Hf]]; [contradiction|].
    exists (float_mul r f). eexists.
    rewrite (scaled_value_other _ _ Hne) in *.
    unfold to_float in *. rewrite Hr, Hf in *. cbn [rbind] in Hline.
    repeat split; [contradiction | now exists f | exact Hline |].
    cbn [m_value]. rewrite normalize_eq. reflexivity.
Qed.

Lemma value_of_metric_witness :
  exists (x : float) (m : Metric),
    scaled_value "5.0" "2.5" = Ok x /\
    ("2.5" = "1.000000" -> x = 5%float) /\
    ("2.5" <> "1.000000" ->
     exists f, Binary64.of_str "2.5" = Some f /\ x = PrimFloat.mul 5%float f) /\
    process_line "1;d;F;5.0;x;2.5;kWh" = Ok m /\
    m_value m = x.
Proof.
  apply (value_of_metric binary64 "1;d;F;5.0;x;2.5;kWh" "5.0" "2.5" "kWh"
           5%float).
  - reflexivity.
  - reflexivity.
  - reflexivity.
  - exact binary64_five.
  - right. eexists. reflexivity.
Defined.

(** The claim as stated fails on the row of the spec's own second scenario:
    with multiplier "1.000000" and unit "mA" the metric's value is 5000.0,
    not float("5.0"). *)
Lemma value_not_float_of_rawvalue :
  exists (m : Metric) (r : float),
    nth_error (Str.split Str.semicolon "1;d;F;5.0;x;1.000000;mA") 5
      = Some "1.000000" /\
    process_line "1;d;F;5.0;x;1.000000;mA" = Ok m /\
    float_of_str "5.0" = Some r /\
    m_value m <> r.
Proof.
  eexists. exists 5%float.
  split; [reflexivity|].
  split; [reflexivity|].
  split; [exact binary64_five|].
  cbn [m_value]. apply float_neq. vm_compute. discriminate.
Qed.

(** ** The mA rule (C2) *)

(** C2, as amended. For every row whose unit field is exactly "mA" the unit
    rules multiply the multiplier-scaled value by 1000 and set unit and
    unit tag to "A"; the metric keeps that value and that unit, and its unit
    tag is "A" unless the descriptor is one of the two absolute-timestamp
    names, for which it is "unixtime". In particular raw value "5.0" with
    multiplier "1.000000" and unit "mA" gives value 5000.0 and unit "A", with
    unit tag "A" for every other descriptor. *)
Theorem mA_scaled_to_A :
  (forall (PF : PyFloat) (line : string) (m : Metric),
      let v := Str.split Str.semicolon line in
      process_line line = Ok m ->
      nth_error v 6 = Some "mA" ->
      exists (rawvalue multiplier : string) (x : pyfloat),
        nth_error v 3 = Some rawvalue /\
        nth_error v 5 = Some multiplier /\
        scaled_value rawvalue multiplier = Ok x /\
        unit_rules {| value := x; unit := "mA"; unit_zabbix := "mA" |} =
          {| value := float_mul x (float_of_int 1000);
             unit := "A";
             unit_zabbix := "A" |} /\
        m_value m = float_mul x (float_of_int 1000) /\
        m_unit m = "A" /\
        m_unit_zabbix m =
          (if is_timestamp (m_descriptor m) then "unixtime" else "A"))
  /\
  (forall (line : string) (m : Metric),
      let v := Str.split Str.semicolon line in
      process_line (PF := binary64) line = Ok m ->
      nth_error v 3 = Some "5.0" ->
      nth_error v 5 = Some "1.000000" ->
      nth_error v 6 = Some "mA" ->
      m_value m = 5000%float /\
      m_unit m = "A" /\
      m_unit_zabbix m =
        (if is_timestamp (m_descriptor m) then "unixtime" else "A")).
Proof.
  assert (G : forall (PF : PyFloat) (line : string) (m : Metric),
             process_line line = Ok m ->
             nth_error (Str.split Str.semicolon line) 6 = Some "mA" ->
             exists (rawvalue multiplier : string) (x : pyfloat),
               nth_error (Str.split Str.semicolon line) 3 = Some rawvalue /\
               nth_error (Str.split Str.semicolon line) 5 = Some multiplier /\
               scaled_value rawvalue multiplier = Ok x /\
               m_value m = float_mul x (float_of_int 1000) /\
               m_unit m = "A" /\
               m_unit_zabbix m =
                 (if is_timestamp (m_descriptor m) then "unixtime" else "A")).
  { intros PF line m Hm H6.
    apply process_line_inv in Hm.
    destruct Hm as (f0 & f1 & f2 & f3 & f4 & f5 & f6 & x & Hf & Hx & ->).
    cbn zeta in Hf. destruct Hf as (_ & _ & _ & H3 & _ & H5 & H6').
    rewrite H6 in H6'. injection H6' as <-.
    exists f3, f5, x. rewrite normalize_eq. cbn.
    repeat (split; [assumption || reflexivity|]). reflexivity. }
  split.
  - intros PF line m v Hm H6.
    destruct (G PF line m Hm H6) as (f3 & f5 & x & H3 & H5 & Hx & Hv & Hu & Ht).
    exists f3, f5, x. rewrite unit_rules_eq. cbn.
    repeat (split; [assumption || reflexivity|]). assumption.
  - intros line m v Hm H3 H5 H6.
    destruct (G binary64 line m Hm H6)
      as (f3 & f5 & x & H3' & H5' & Hx & Hv & Hu & Ht).
    fold v in H3', H5'. rewrite H3 in H3'. rewrite H5 in H5'.
    injection H3' as <-. injection H5' as <-.
    rewrite scaled_value_one in Hx. unfold to_float in Hx.
    cbn [float_of_str binary64] in Hx. rewrite binary64_five in Hx.
    injection Hx as <-.
    split; [|split; assumption].
    rewrite Hv. exact binary64_five_thousand.
Qed.

Lemma mA_scaled_to_A_witness :
  exists m : Metric,
    process_line (PF := binary64) "1;d;F;5.0;x;1.000000;mA" = Ok m /\
    m_value m = 5000%float /\ m_unit m = "A" /\ m_unit_zabbix m = "A".
Proof.
  eexists. split; [reflexivity|].
  apply (proj2 mA_scaled_to_A "1;d;F;5.0;x;1.000000;mA").
  - reflexivity.
  - reflexivity.
  - reflexivity.
  - reflexivity.
Defined.

(** The claim as stated fails on a row with unit "mA" whose descriptor is the
    backup timestamp: the unit tag of its metric is "unixtime", not "A". *)
Lemma mA_unit_tag_not_A :
  exists m : Metric,
    nth_error
      (Str.split Str.semicolon
         "1;SystemState_persistent.Global.LastSystemBackupTimestamp;F;5.0;x;1.000000;mA")
      6 = Some "mA" /\
    process_line (PF := binary64)
      "1;SystemState_persistent.Global.LastSystemBackupTimestamp;F;5.0;x;1.000000;mA"
      = Ok m /\
    m_unit m = "A" /\
    m_unit_zabbix m <> "A".
Proof.
  eexists.
  split; [reflexivity|].
  split; [reflexivity|].
  split; [reflexivity|].
  cbn [m_unit_zabbix]. discriminate.
Qed.

(** ** The timestamp descriptors (C3) *)

(** C3. For every row whose descriptor is one of the two absolute-timestamp
    names the final unit tag is "unixtime", whatever tag the rules for mA,
    kWh and h assigned; the unit and the value of the metric are the ones
    those rules produced. *)
Theorem timestamp_descriptor_unixtime :
  forall (PF : PyFloat) (line descriptor : string) (m : Metric),
    let v := Str.split Str.semicolon line in
    process_line line = Ok m ->
    nth_error v 1 = Some descriptor ->
    descriptor = LastSystemBackupTimestamp
    \/ descriptor = LastSendProtocolTimestamp ->
    m_unit_zabbix m = "unixtime" /\
    exists (rawvalue multiplier u : string) (x : pyfloat),
      nth_error v 3 = Some rawvalue /\
      nth_error v 5 = Some multiplier /\
      nth_error v 6 = Some u /\
      scaled_value rawvalue multiplier = Ok x /\
      let l := unit_rules {| value := x; unit := u; unit_zabbix := u |} in
      m_unit m = unit l /\ m_value m = value l.
Proof.
  intros PF line descriptor m v Hm H1 Hd.
  apply process_line_inv in Hm.
  destruct Hm as (f0 & f1 & f2 & f3 & f4 & f5 & f6 & x & Hf & Hx & ->).
  cbn zeta in Hf. fold v in Hf. destruct Hf as (_ & H1' & _ & H3 & _ & H5 & H6).
  rewrite H1 in H1'. injection H1' as <-.
  apply is_timestamp_iff in Hd.
  unfold normalize, apply_rules. rewrite timestamp_rules_eq, Hd.
  split; [reflexivity|].
  exists f3, f5, f6, x. cbn zeta.
  repeat (split; [assumption|]). split; reflexivity.
Qed.

Lemma timestamp_descriptor_unixtime_witness :
  exists m : Metric,
    process_line (PF := binary64)
      "1;SystemState_persistent.SolarPortal.LastSendProtocolTimestamp;F;2.0;x;1.000000;h"
      = Ok m /\
    m_unit_zabbix m = "unixtime".
Proof.
  eexists. split; [reflexivity|].
  apply (timestamp_descriptor_unixtime binary64
           "1;SystemState_persistent.SolarPortal.LastSendProtocolTimestamp;F;2.0;x;1.000000;h"
           LastSendProtocolTimestamp).
  - reflexivity.
  - reflexivity.
  - right. reflexivity.
Defined.

(** ** Totality and idempotence of the unit normalisation (C9) *)

(** C9, as amended. Normalisation is total: for every descriptor, unit and
    value it yields the unit, unit tag and value written out below. A unit
    other than "mA", "kWh" and "h" passes through with its value, and its
    unit tag equals the unit unless the descriptor is one of the two
    absolute-timestamp names, for which the tag is "unixtime". Normalising
    a normalised result again, or applying the rules to it as it stands,
    changes nothing. *)
Theorem normalize_total_idempotent :
  forall (PF : PyFloat) (descriptor u : string) (x : pyfloat),
    let r := normalize descriptor u x in
    (exists (x' : pyfloat) (u' t' : string),
        r = {| value := x'; unit := u'; unit_zabbix := t' |}) /\
    (u <> "mA" -> u <> "kWh" -> u <> "h" ->
     unit r = u /\ value r = x /\
     unit_zabbix r = (if is_timestamp descriptor then "unixtime" else u)) /\
    normalize descriptor (unit r) (value r) = r /\
    apply_rules descriptor r = r.
Proof.
  intros PF d u x r. subst r.
  split; [rewrite normalize_eq; now eexists; eexists; eexists|].
  split.
  - intros HmA HkWh Hh. rewrite normalize_eq. cbn [unit value unit_zabbix].
    destruct (String.eqb_spec u "mA"); [contradiction|].
    destruct (String.eqb_spec u "kWh"); [contradiction|].
    destruct (String.eqb_spec u "h"); [contradiction|].
    repeat split.
  - split.
    + rewrite (normalize_eq d u x). cbn [unit value unit_zabbix].
      rewrite normalize_eq.
      destruct (String.eqb_spec u "mA") as [->|HmA]; [reflexivity|].
      destruct (String.eqb_spec u "h") as [->|Hh]; [reflexivity|].
      destruct (String.eqb_spec u "mA"); [contradiction|].
      destruct (String.eqb_spec u "h"); [contradiction|].
      reflexivity.
    + rewrite (normalize_eq d u x). unfold apply_rules.
      rewrite unit_rules_eq, timestamp_rules_eq. cbn [unit value unit_zabbix].
      destruct (is_timestamp d);
        (destruct (String.eqb_spec u "mA") as [->|HmA]; [reflexivity|]);
        (destruct (String.eqb_spec u "h") as [->|Hh]; [reflexivity|]);
        (destruct (String.eqb_spec u "mA"); [contradiction|]);
        (destruct (String.eqb_spec u "h"); [contradiction|]);
        destruct (String.eqb_spec u "kWh"); reflexivity.
Qed.

Lemma normalize_total_idempotent_witness :
  unit (normalize (PF := binary64) "d" "Hz" 50%float) = "Hz" /\
  value (normalize (PF := binary64) "d" "Hz" 50%float) = 50%float /\
  unit_zabbix (normalize (PF := binary64) "d" "Hz" 50%float) = "Hz".
Proof.
  apply (proj1 (proj2 (normalize_total_idempotent binary64 "d" "Hz" 50%float)));
    discriminate.
Defined.

(** The claim as stated fails for a unit that no rule knows on a row whose
    descriptor is the backup timestamp: the unit tag is not the unit. *)
Lemma unrecognized_unit_tag_not_unit :
  "Hz" <> "mA" /\ "Hz" <> "kWh" /\ "Hz" <> "h" /\
  unit
    (normalize (PF := binary64) LastSystemBackupTimestamp "Hz" 50%float)
    = "Hz" /\
  unit_zabbix
    (normalize (PF := binary64) LastSystemBackupTimestamp "Hz" 50%float)
    <> "Hz".
Proof.
  repeat (split; [discriminate || reflexivity|]).
  cbn. discriminate.
Qed.

(** ** Lines of the response body (C4) *)

Lemma splitlines_cons_not_nil (c : ascii) (s : string) :
  Str.splitlines (String c s) <> [].
Proof.
  cbn. destruct (Str.is_linebreak c).
  - destruct s as [|c' s]; [discriminate|].
    destruct (Ascii.eqb c Str.CR && Ascii.eqb c' Str.LF)%bool; discriminate.
  - destruct (Str.splitlines s); discriminate.
Qed.

Lemma cons_char_app (c : ascii) (l1 l2 : list string) :
  l1 <> [] -> Str.cons_char c (l1 ++ l2) = (Str.cons_char c l1 ++ l2)%list.
Proof. destruct l1; [contradiction|reflexivity]. Qed.

Lemma splitlines_LF_cons (q : string) :
  Str.splitlines (String Str.LF q) = "" :: Str.splitlines q.
Proof. destruct q; reflexivity. Qed.

(** A boundary followed by a character: either the two are a CR LF pair, or
    the boundary ends the line on its own. *)
Lemma splitlines_break2 (c c' : ascii) (s : string) :
  Str.is_linebreak c = true ->
  Str.splitlines (String c (String c' s)) =
  if (Ascii.eqb c Str.CR && Ascii.eqb c' Str.LF)%bool
  then "" :: Str.splitlines s
  else "" :: Str.splitlines (String c' s).
Proof. intros H. cbn [Str.splitlines]. rewrite H. reflexivity. Qed.

(** A line feed ends the line it stands on, and the lines of what follows
    it come after the lines before it. *)
Lemma splitlines_line_feed (n : nat) :
  forall p q : string,
    (String.length p <= n)%nat ->
    Str.splitlines (p ++ String Str.LF q) =
    (Str.splitlines (p ++ String Str.LF "") ++ Str.splitlines q)%list.
Proof.
  induction n as [|n IH]; intros p q Hn.
  - destruct p; simpl in Hn; [|lia]. cbn [append].
    rewrite splitlines_LF_cons. reflexivity.
  - destruct p as [|c p]; [apply (IH ""%string q); simpl; lia|].
    simpl in Hn. cbn [append].
    destruct (Str.is_linebreak c) eqn:Hc.
    + destruct p as [|c' p]; cbn [append].
      * rewrite !(splitlines_break2 _ _ _ Hc).
        destruct (Ascii.eqb c Str.CR && Ascii.eqb Str.LF Str.LF)%bool.
        -- reflexivity.
        -- rewrite splitlines_LF_cons. reflexivity.
      * rewrite !(splitlines_break2 _ _ _ Hc).
        destruct (Ascii.eqb c Str.CR && Ascii.eqb c' Str.LF)%bool.
        -- rewrite (IH p q) by (simpl in Hn; lia). reflexivity.
        -- change (String c' (p ++ String Str.LF q))
             with (String c' p ++ String Str.LF q).
           change (String c' (p ++ String Str.LF ""))
             with (String c' p ++ String Str.LF "").
           rewrite (IH (String c' p) q) by (simpl in *; lia). reflexivity.
    + rewrite !(splitlines_nobreak _ _ Hc).
      rewrite (IH p q) by lia. apply cons_char_app.
      destruct p; cbn [append]; apply splitlines_cons_not_nil.
Qed.

(** A boundary at the very end of the text, after a character that is none,
    adds no line. [tl] is the boundary: any text whose only line is empty. *)
Lemma splitlines_final_boundary (n : nat) :
  forall (s tl : string) (a : ascii),
    (String.length s <= n)%nat ->
    Str.is_linebreak a = false ->
    Str.splitlines tl = [""] ->
    Str.splitlines (s ++ String a tl) = Str.splitlines (s ++ String a "").
Proof.
  induction n as [|n IH]; intros s tl a Hn Ha Htl.
  - destruct s; simpl in Hn; [|lia]. cbn [append].
    rewrite !(splitlines_nobreak _ _ Ha), Htl. reflexivity.
  - destruct s as [|c s]; [apply (IH ""%string); simpl; [lia|assumption..]|].
    simpl in Hn. cbn [append].
    destruct (Str.is_linebreak c) eqn:Hc.
    + destruct s as [|c' s]; cbn [append].
      * rewrite !(splitlines_break2 _ _ _ Hc).
        assert (Hne : Ascii.eqb a Str.LF = false).
        { destruct (Ascii.eqb_spec a Str.LF) as [->|]; [|reflexivity].
          discriminate Ha. }
        rewrite Hne, andb_false_r.
        rewrite !(splitlines_nobreak _ _ Ha), Htl. reflexivity.
      * rewrite !(splitlines_break2 _ _ _ Hc).
        destruct (Ascii.eqb c Str.CR && Ascii.eqb c' Str.LF)%bool.
        -- rewrite (IH s tl a) by (simpl in Hn; lia || assumption).
           reflexivity.
        -- change (String c' (s ++ String a tl))
             with (String c' s ++ String a tl).
           change (String c' (s ++ String a ""))
             with (String c' s ++ String a "").
           rewrite (IH (String c' s) tl a) by (simpl in *; lia || assumption).
           reflexivity.
    + rewrite !(splitlines_nobreak _ _ Hc).
      rewrite (IH s tl a) by (lia || assumption). reflexivity.
Qed.

Lemma append_assoc (a b c : string) : ((a ++ b) ++ c = a ++ (b ++ c))%string.
Proof. induction a as [|x a IH]; cbn; [reflexivity|now rewrite IH]. Qed.

(** C4, as amended. The parser splits the body at line boundaries and
    processes every line, empty ones included. A parse that succeeds
    returns exactly one metric per line, in the order of the lines, and the
    number of lines; it succeeds when every line yields a metric. An empty
    line has a single field, so it raises IndexError and the parse fails:
    a body in which one of the lines is empty, in particular any body with
    two line feeds in a row, has no metrics at all. Only the boundary that
    ends the body starts no line: a line feed inside the body ends a line
    and what follows it makes lines of its own, while a boundary (one
    boundary character, or CR LF) after the last character of the body adds
    no line, so that body parses as it does without the boundary. *)
Theorem parse_every_line :
  forall (PF : PyFloat) (text : string),
    let lines := Str.splitlines text in
    (forall (ms : list Metric) (n : Z),
        parse text = Ok (ms, n) ->
        List.length ms = List.length lines /\
        n = Z.of_nat (List.length lines) /\
        Forall2 (fun line m => process_line line = Ok m) lines ms) /\
    ((forall line, In line lines -> is_ok (process_line line) = true) ->
     is_ok (parse text) = true) /\
    process_line "" = Raise IndexError /\
    (In "" lines -> is_ok (parse text) = false) /\
    (forall p q : string,
        text = p ++ String Str.LF (String Str.LF q) ->
        is_ok (parse text) = false) /\
    (forall p q : string,
        text = p ++ String Str.LF q ->
        lines = (Str.splitlines (p ++ String Str.LF "")
                   ++ Str.splitlines q)%list /\
        (q <> ""%string -> Str.splitlines q <> [])) /\
    (forall (s : string) (a b : ascii),
        text = s ++ String a "" ->
        Str.is_linebreak a = false ->
        Str.is_linebreak b = true ->
        Str.splitlines (text ++ String b "") = lines /\
        Str.splitlines (text ++ String Str.CR (String Str.LF "")) = lines /\
        parse (text ++ String b "") = parse text /\
        parse (text ++ String Str.CR (String Str.LF "")) = parse text).
Proof.
  intros PF text lines. unfold parse. fold lines.
  assert (Hempty : In ""%string lines ->
                   is_ok (process_lines lines [] 0) = false).
  { intros Hin. apply (process_lines_raise lines [] 0 ""%string Hin).
    reflexivity. }
  split; [|split; [|split; [|split; [|split; [|split]]]]].
  - intros ms n H. apply process_lines_ok in H.
    destruct H as (new & -> & -> & HF). cbn [app].
    split; [symmetry; exact (Forall2_length HF)|].
    split; [lia|exact HF].
  - apply process_lines_all_ok.
  - reflexivity.
  - exact Hempty.
  - intros p q ->. apply Hempty. apply splitlines_has_blank_line.
  - intros p q Ht. split.
    + subst lines. rewrite Ht.
      exact (splitlines_line_feed (String.length p) p q (le_n _)).
    + intros Hq. destruct q; [contradiction|apply splitlines_cons_not_nil].
  - intros s a b Ht Ha Hb.
    assert (E1 : Str.splitlines (text ++ String b "") = lines).
    { subst lines. rewrite Ht, append_assoc. cbn [append].
      apply (splitlines_final_boundary (String.length s));
        [apply le_n|exact Ha|].
      cbn. now rewrite Hb. }
    assert (E2 : Str.splitlines (text ++ String Str.CR (String Str.LF ""))
                 = lines).
    { subst lines. rewrite Ht, append_assoc. cbn [append].
      apply (splitlines_final_boundary (String.length s));
        [apply le_n|exact Ha|reflexivity]. }
    rewrite E1, E2. repeat split.
Qed.

Lemma parse_every_line_witness :
  is_ok
    (parse (PF := binary64)
       ("1;d;F;5.0;x;1.000000;Hz"
          ++ String Str.LF (String Str.LF "2;e;F;2.0;y;2.5;kWh")))
  = false.
Proof.
  apply (proj1 (proj2 (proj2 (proj2 (proj2
           (parse_every_line binary64
              ("1;d;F;5.0;x;1.000000;Hz"
                 ++ String Str.LF (String Str.LF "2;e;F;2.0;y;2.5;kWh")))))))
           "1;d;F;5.0;x;1.000000;Hz" "2;e;F;2.0;y;2.5;kWh").
  reflexivity.
Defined.

(** The claim as stated fails on a body of two well-formed rows with an
    empty line between them: the empty line is processed, raises IndexError
    and no metric is returned, while the same two rows without it parse. *)
Lemma empty_line_fails_parse :
  Str.splitlines
    ("1;d;F;5.0;x;1.000000;Hz"
       ++ String Str.LF (String Str.LF "2;e;F;2.0;y;2.5;kWh"))
  = ["1;d;F;5.0;x;1.000000;Hz"; ""; "2;e;F;2.0;y;2.5;kWh"] /\
  parse (PF := binary64)
    ("1;d;F;5.0;x;1.000000;Hz"
       ++ String Str.LF (String Str.LF "2;e;F;2.0;y;2.5;kWh"))
  = Raise IndexError /\
  is_ok
    (parse (PF := binary64)
       ("1;d;F;5.0;x;1.000000;Hz"
          ++ String Str.LF ("2;e;F;2.0;y;2.5;kWh" ++ String Str.LF "")))
  = true.
Proof.
  split; [reflexivity|].
  split; reflexivity.
Qed.

(** ** The cycle task and the connect sequence *)

Section WorkerFacts.

Context {PF : PyFloat}.

Ltac run_act :=
  unfold do_repeat, mqtt_connect, client_connect, client_publish,
    requests_get, logging, new_client, set_connected, get_connected,
    lift, emit, attempt, bind, raise, ret.

(** The connect sequence: a new client, one connect call, and the flag set
    by its outcome. *)
Lemma mqtt_connect_eq (cfg : Config) (answer : option exn) (w : Worker) :
  mqtt_connect cfg answer w =
  (Ok tt,
   {| mqtt_client := S (mqtt_client w);
      mqtt_connected := match answer with None => true | Some _ => false end |},
   MqttConnect (mqtt_host cfg) 1883 60 ::
     match answer with
     | None => []
     | Some _ => [Log ERROR "error occurred connecting to mqtt: {}"]
     end).
Proof. run_act. destruct answer; reflexivity. Qed.

Lemma do_repeat_connection_error (cfg : Config) (c : Cycle) (w : Worker) :
  http c = HttpRaises ConnectionError ->
  do_repeat cfg c w =
  (Ok tt, w,
   (fetch_trace cfg
      ++ [Log ERROR "received error during http fetch: {}"])%list).
Proof. intros H. run_act. rewrite H. reflexivity. Qed.

Lemma do_repeat_http_raises (cfg : Config) (c : Cycle) (w : Worker) (e : exn) :
  http c = HttpRaises e -> is_ConnectionError e = false ->
  do_repeat cfg c w = (Raise e, w, fetch_trace cfg).
Proof. intros H He. run_act. rewrite H. cbn. rewrite He. reflexivity. Qed.

Lemma do_repeat_not_200 (cfg : Config) (c : Cycle) (w : Worker)
  (status_code : Z) (text : string) :
  http c = HttpResponse status_code text -> status_code <> 200 ->
  do_repeat cfg c w =
  (Raise (Error ("error fetching data: " ++ text)), w, fetch_trace cfg).
Proof.
  intros H Hs. run_act. rewrite H. cbn.
  destruct (Z.eqb_spec status_code 200); [contradiction|reflexivity].
Qed.

Lemma do_repeat_parse_raises (cfg : Config) (c : Cycle) (w : Worker)
  (text : string) (e : exn) :
  http c = HttpResponse 200 text -> parse text = Raise e ->
  do_repeat cfg c w = (Raise e, w, fetch_trace cfg).
Proof. intros H Hp. run_act. rewrite H. cbn. rewrite Hp. reflexivity. Qed.

Lemma do_repeat_publish (cfg : Config) (c : Cycle) (w : Worker)
  (text : string) (allmetrics : list Metric) (linecnt : Z) :
  http c = HttpResponse 200 text -> parse text = Ok (allmetrics, linecnt) ->
  mqtt_connected w = true ->
  do_repeat cfg c w =
  (match publish c with Some e => Raise e | None => Ok tt end, w,
   (fetch_trace cfg
      ++ [Log INFO "processed {} values";
          MqttPublish (mqtt_topic cfg) allmetrics])%list).
Proof.
  intros H Hp Hc. run_act. rewrite H. cbn. rewrite Hp, Hc.
  destruct (publish c); reflexivity.
Qed.

Lemma do_repeat_reconnect (cfg : Config) (c : Cycle) (w : Worker)
  (text : string) (allmetrics : list Metric) (linecnt : Z) :
  http c = HttpResponse 200 text -> parse text = Ok (allmetrics, linecnt) ->
  mqtt_connected w = false ->
  do_repeat cfg c w =
  (Ok tt, snd (fst (mqtt_connect cfg (connect c) w)),
   (fetch_trace cfg
      ++ [Log INFO "processed {} values"; reconnect_warning]
      ++ snd (mqtt_connect cfg (connect c) w))%list).
Proof.
  intros H Hp Hc. rewrite mqtt_connect_eq. run_act. rewrite H. cbn.
  rewrite Hp, Hc. destruct (connect c); reflexivity.
Qed.

(** The cases of [do_repeat]: what it returns, the worker it leaves and its
    trace are one of the five above. *)
Lemma do_repeat_cases (cfg : Config) (c : Cycle) (w : Worker) :
  (exists r tr, do_repeat cfg c w = (r, w, tr)
                /\ count is_connect tr = 0%nat
                /\ (mqtt_connected w = false -> count is_publish tr = 0%nat))
  \/ (mqtt_connected w = false
      /\ exists text allmetrics linecnt,
           http c = HttpResponse 200 text
           /\ parse text = Ok (allmetrics, linecnt)).
Proof.
  destruct (http c) as [e|status_code text] eqn:H.
  - left. destruct (is_ConnectionError e) eqn:He.
    + destruct e; try discriminate.
      rewrite (do_repeat_connection_error _ _ _ H).
      do 2 eexists. split; [reflexivity|]. split; [reflexivity|reflexivity].
    + rewrite (do_repeat_http_raises _ _ _ _ H He).
      do 2 eexists. split; [reflexivity|]. split; reflexivity.
  - destruct (Z.eq_dec status_code 200) as [->|Hs].
    + destruct (parse text) as [[allmetrics linecnt]|e] eqn:Hp.
      * destruct (mqtt_connected w) eqn:Hc.
        -- left. rewrite (do_repeat_publish _ _ _ _ _ _ H Hp Hc).
           do 2 eexists. split; [reflexivity|].
           split; [reflexivity|discriminate].
        -- right. split; [reflexivity|]. now exists text, allmetrics, linecnt.
      * left. rewrite (do_repeat_parse_raises _ _ _ _ _ H Hp).
        do 2 eexists. split; [reflexivity|]. split; reflexivity.
    + left. rewrite (do_repeat_not_200 _ _ _ _ _ H Hs).
      do 2 eexists. split; [reflexivity|]. split; reflexivity.
Qed.

Lemma do_repeat_no_call (cfg : Config) (c : Cycle) (w : Worker) :
  count is_call (snd (do_repeat cfg c w)) = 0%nat.
Proof.
  destruct (http c) as [e|status_code text] eqn:H.
  - destruct (is_ConnectionError e) eqn:He.
    + destruct e; try discriminate.
      rewrite (do_repeat_connection_error _ _ _ H). reflexivity.
    + rewrite (do_repeat_http_raises _ _ _ _ H He). reflexivity.
  - destruct (Z.eq_dec status_code 200) as [->|Hs].
    + destruct (parse text) as [[allmetrics linecnt]|e'] eqn:Hp.
      * destruct (mqtt_connected w) eqn:Hc.
        -- rewrite (do_repeat_publish _ _ _ _ _ _ H Hp Hc). reflexivity.
        -- rewrite (do_repeat_reconnect _ _ _ _ _ _ H Hp Hc).
           rewrite mqtt_connect_eq. destruct (connect c); reflexivity.
      * rewrite (do_repeat_parse_raises _ _ _ _ _ H Hp). reflexivity.
    + rewrite (do_repeat_not_200 _ _ _ _ _ H Hs). reflexivity.
Qed.

(** ** The scheduler loop *)

Lemma count_app (p : event -> bool) (a b : list event) :
  count p (a ++ b) = (count p a + count p b)%nat.
Proof. unfold count. now rewrite filter_app, length_app. Qed.

(** One pass: the sleep, the call, what the task did, the log entry of the
    exception it raised if any, and the schedule advanced. *)
Lemma every_iteration_eq (delay : Z) (task : Cycle -> Act NoneType)
  (t : Tick) (next_time : Z) (w : Worker) :
  every_iteration delay task t next_time w =
  (advance delay next_time (now_after t),
   snd (fst (task (cycle t) w)),
   Sleep (Z.max 0 (next_time - now_before t)) :: Call ::
     (snd (task (cycle t) w)
        ++ match fst (fst (task (cycle t) w)) with
           | Raise e =>
               [LogException "Problem while executing repetitive task." e]
           | Ok _ => []
           end)%list).
Proof.
  unfold every_iteration, bind, attempt, emit, lift, ret.
  destruct (task (cycle t) w) as [[r w1] tr]. cbn [fst snd].
  destruct r as [a|e]; cbn; rewrite ?app_nil_r; reflexivity.
Qed.

Lemma every_cons (delay : Z) (task : Cycle -> Act NoneType) (t : Tick)
  (ticks : list Tick) (next_time : Z) (w : Worker) :
  every delay task (t :: ticks) next_time w =
  match every_iteration delay task t next_time w with
  | (Ok n, w1, t1) =>
      (fst (fst (every delay task ticks n w1)),
       snd (fst (every delay task ticks n w1)),
       (t1 ++ snd (every delay task ticks n w1))%list)
  | (Raise e, w1, t1) => (Raise e, w1, t1)
  end.
Proof.
  cbn [every]. unfold bind.
  destruct (every_iteration delay task t next_time w) as [[[n|e] w1] t1];
    [|reflexivity].
  destruct (every delay task ticks n w1) as [[r w2] t2]. reflexivity.
Qed.

Lemma advance_ok (delay next_time now : Z) :
  delay <> 0 ->
  advance delay next_time now =
  Ok (next_time + ((now - next_time) / delay * delay + delay)).
Proof.
  intros H. unfold advance.
  destruct (Z.eqb_spec delay 0); [contradiction|reflexivity].
Qed.

(** With a non-zero interval no pass ends the loop. *)
Lemma every_ok (delay : Z) (task : Cycle -> Act NoneType)
  (ticks : list Tick) :
  delay <> 0 ->
  forall (next_time : Z) (w : Worker),
    is_ok (fst (fst (every delay task ticks next_time w))) = true.
Proof.
  intros Hd. induction ticks as [|t ticks IH]; intros next_time w;
    [reflexivity|].
  rewrite every_cons, every_iteration_eq, (advance_ok _ _ _ Hd).
  cbn [fst]. apply IH.
Qed.

(** One call of the task per pass, whatever the clock says. *)
Lemma every_calls (delay : Z) (task : Cycle -> Act NoneType)
  (ticks : list Tick) :
  delay <> 0 ->
  (forall c w, count is_call (snd (task c w)) = 0%nat) ->
  forall (next_time : Z) (w : Worker),
    count is_call (snd (every delay task ticks next_time w))
    = List.length ticks.
Proof.
  intros Hd Htask. induction ticks as [|t ticks IH]; intros next_time w;
    [reflexivity|].
  rewrite every_cons, every_iteration_eq, (advance_ok _ _ _ Hd).
  cbn [snd]. rewrite count_app, IH.
  change (Sleep (Z.max 0 (next_time - now_before t)) :: Call :: ?l)
    with ([Sleep (Z.max 0 (next_time - now_before t)); Call] ++ l)%list.
  rewrite !count_app, Htask.
  destruct (fst (fst (task (cycle t) w))); reflexivity.
Qed.

(** A worker whose flag is set goes through any number of passes unchanged,
    and no pass calls connect. *)
Lemma every_keeps_connected (cfg : Config) (delay : Z) (ticks : list Tick) :
  forall (next_time : Z) (w : Worker),
    mqtt_connected w = true ->
    snd (fst (every delay (do_repeat cfg) ticks next_time w)) = w /\
    count is_connect (snd (every delay (do_repeat cfg) ticks next_time w))
    = 0%nat.
Proof.
  induction ticks as [|t ticks IH]; intros next_time w Hw;
    [split; reflexivity|].
  rewrite every_cons, every_iteration_eq.
  destruct (do_repeat_cases cfg (cycle t) w)
    as [(r & tr & E & Hconn & _) | (Hc & _)]; [|congruence].
  rewrite E. cbn [fst snd].
  assert (Hpass : count is_connect
            (Sleep (Z.max 0 (next_time - now_before t)) :: Call ::
               (tr ++ match r with
                      | Raise e =>
                          [LogException
                             "Problem while executing repetitive task." e]
                      | Ok _ => []
                      end)%list) = 0%nat).
  { change (count is_connect
              (tr ++ match r with
                     | Raise e =>
                         [LogException
                            "Problem while executing repetitive task." e]
                     | Ok _ => []
                     end)%list = 0%nat).
    rewrite count_app, Hconn. destruct r; reflexivity. }
  destruct (advance delay next_time (now_after t)) as [n|e]; cbn [fst snd].
  - destruct (IH n w Hw) as [IHw IHc]. split; [exact IHw|].
    rewrite count_app, IHc, Hpass. reflexivity.
  - split; [reflexivity|exact Hpass].
Qed.

End WorkerFacts.

(** ** The schedule (C5) *)





(** ** Failures of the task (C6, C7) *)

(** C6. An exception raised by the task during a pass of the loop is caught
    there and logged, and is not what the pass returns: the pass goes on to
    advance the schedule. With a non-zero interval the loop therefore goes
    through every pass, whatever the task does. The parse errors of
    [do_repeat] (a malformed row) are such exceptions. *)
Theorem task_exceptions_contained :
  forall (PF : PyFloat),
    (forall (delay : Z) (task : Cycle -> Act NoneType) (t : Tick)
            (next_time : Z) (w w1 : Worker) (e : exn) (tr : list event),
        task (cycle t) w = (Raise e, w1, tr) ->
        every_iteration delay task t next_time w =
        (advance delay next_time (now_after t), w1,
         Sleep (Z.max 0 (next_time - now_before t)) :: Call ::
           (tr ++ [LogException
                     "Problem while executing repetitive task." e])%list)) /\
    (forall (delay : Z) (task : Cycle -> Act NoneType) (ticks : list Tick)
            (next_time : Z) (w : Worker),
        delay <> 0 ->
        is_ok (fst (fst (every delay task ticks next_time w))) = true) /\
    (forall (cfg : Config) (delay : Z) (ticks : list Tick) (next_time : Z)
            (w : Worker),
        delay <> 0 ->
        count is_call (snd (every delay (do_repeat cfg) ticks next_time w))
        = List.length ticks) /\
    (forall (cfg : Config) (c : Cycle) (w : Worker) (text : string) (e : exn),
        http c = HttpResponse 200 text ->
        parse text = Raise e ->
        do_repeat cfg c w = (Raise e, w, fetch_trace cfg)).
Proof.
  intros PF. split; [|split; [|split]].
  - intros delay task t next_time w w1 e tr H.
    rewrite every_iteration_eq, H. reflexivity.
  - intros delay task ticks next_time w Hd. now apply every_ok.
  - intros cfg delay ticks next_time w Hd.
    apply every_calls; [exact Hd|]. intros c w'. apply do_repeat_no_call.
  - intros cfg c w text e H Hp. exact (do_repeat_parse_raises _ _ _ _ _ H Hp).
Qed.

Lemma task_exceptions_contained_witness :
  every_iteration (PF := binary64) 10 (do_repeat Sample.cfg)
    (Sample.tick 0 (Sample.answers 200 "no;row") 3) 0 blank =
  (advance 10 0 3, blank,
   Sleep (Z.max 0 (0 - 0)) :: Call ::
     (fetch_trace Sample.cfg
        ++ [LogException "Problem while executing repetitive task."
              IndexError])%list).
Proof.
  apply (proj1 (task_exceptions_contained binary64) 10
           (do_repeat Sample.cfg)
           (Sample.tick 0 (Sample.answers 200 "no;row") 3)).
  apply (proj2 (proj2 (proj2 (task_exceptions_contained binary64)))
           Sample.cfg (Sample.answers 200 "no;row") blank "no;row").
  - reflexivity.
  - reflexivity.
Defined.

(** C7, as amended. When the device answers with a status other than 200,
    the cycle task raises the application error, having published nothing
    and assigned nothing. The scheduler loop that called it catches that
    error and logs it, whatever the interval, so the error never leaves the
    pass; the pass goes on to advance the schedule. With a non-zero interval
    the pass ends normally and the worker goes on to the next pass. With an
    interval of 0 the pass, and the loop with it, ends with the
    ZeroDivisionError of line 152, as after any other task, and never with
    the application error. *)
Theorem non_200_error_contained :
  forall (PF : PyFloat) (cfg : Config) (c : Cycle) (w : Worker)
         (status_code : Z) (text : string),
    http c = HttpResponse status_code text ->
    status_code <> 200 ->
    do_repeat cfg c w =
      (Raise (Error ("error fetching data: " ++ text)), w, fetch_trace cfg) /\
    count is_publish (fetch_trace cfg) = 0%nat /\
    forall (delay next_time : Z) (t : Tick) (ticks : list Tick),
      cycle t = c ->
      every_iteration delay (do_repeat cfg) t next_time w =
        (advance delay next_time (now_after t), w,
         Sleep (Z.max 0 (next_time - now_before t)) :: Call ::
           (fetch_trace cfg
              ++ [LogException "Problem while executing repetitive task."
                    (Error ("error fetching data: " ++ text))])%list) /\
      (forall e : exn,
          fst (fst (every_iteration delay (do_repeat cfg) t next_time w))
          = Raise e ->
          delay = 0 /\ e = ZeroDivisionError) /\
      (delay <> 0 ->
       every_iteration delay (do_repeat cfg) t next_time w =
         (Ok (next_time
              + ((now_after t - next_time) / delay * delay + delay)), w,
          Sleep (Z.max 0 (next_time - now_before t)) :: Call ::
            (fetch_trace cfg
               ++ [LogException "Problem while executing repetitive task."
                     (Error ("error fetching data: " ++ text))])%list) /\
       is_ok
         (fst (fst (every delay (do_repeat cfg) (t :: ticks) next_time w)))
       = true /\
       count is_call
         (snd (every delay (do_repeat cfg) (t :: ticks) next_time w))
       = S (List.length ticks)) /\
      (delay = 0 ->
       every delay (do_repeat cfg) (t :: ticks) next_time w =
         (Raise ZeroDivisionError, w,
          Sleep (Z.max 0 (next_time - now_before t)) :: Call ::
            (fetch_trace cfg
               ++ [LogException "Problem while executing repetitive task."
                     (Error ("error fetching data: " ++ text))])%list)).
Proof.
  intros PF cfg c w status_code text H Hs.
  pose proof (do_repeat_not_200 cfg c w status_code text H Hs) as E.
  split; [exact E|]. split; [reflexivity|].
  intros delay next_time t ticks Ht.
  assert (Epass : every_iteration delay (do_repeat cfg) t next_time w =
            (advance delay next_time (now_after t), w,
             Sleep (Z.max 0 (next_time - now_before t)) :: Call ::
               (fetch_trace cfg
                  ++ [LogException "Problem while executing repetitive task."
                        (Error ("error fetching data: " ++ text))])%list))
    by (rewrite every_iteration_eq, Ht, E; reflexivity).
  split; [exact Epass|]. split; [|split].
  - intros e. rewrite Epass. cbn [fst]. unfold advance.
    destruct (Z.eqb_spec delay 0); [|discriminate].
    intros He. injection He as <-. split; [assumption|reflexivity].
  - intros Hd. split; [|split].
    + rewrite Epass, (advance_ok _ _ _ Hd). reflexivity.
    + now apply every_ok.
    + apply (every_calls delay (do_repeat cfg) (t :: ticks) Hd).
      intros c' w'. apply do_repeat_no_call.
  - intros ->. rewrite every_cons, Epass. reflexivity.
Qed.

Lemma non_200_error_contained_witness :
  do_repeat (PF := binary64) Sample.cfg (Sample.answers 500 "busy") blank =
  (Raise (Error "error fetching data: busy"), blank,
   fetch_trace Sample.cfg).
Proof.
  apply (proj1 (non_200_error_contained binary64 Sample.cfg
                  (Sample.answers 500 "busy") blank 500 "busy"
                  eq_refl ltac:(discriminate))).
Defined.

(** The claim as stated fails on a device that answers 500 in the first pass
    and 200 in the second: the task raises the application error in the
    first pass, the loop catches it, and the second pass runs and
    publishes. *)
Lemma non_200_error_is_caught :
  fst (fst (do_repeat (PF := binary64) Sample.cfg
              (Sample.answers 500 "busy")
              {| mqtt_client := 1; mqtt_connected := true |}))
  = Raise (Error "error fetching data: busy") /\
  fst (fst (every (PF := binary64) 10 (do_repeat Sample.cfg)
              [Sample.tick 0 (Sample.answers 500 "busy") 1;
               Sample.tick 1 (Sample.answers 200 Sample.body) 11]
              0 {| mqtt_client := 1; mqtt_connected := true |}))
  = Ok 20 /\
  count is_call
    (snd (every (PF := binary64) 10 (do_repeat Sample.cfg)
            [Sample.tick 0 (Sample.answers 500 "busy") 1;
             Sample.tick 1 (Sample.answers 200 Sample.body) 11]
            0 {| mqtt_client := 1; mqtt_connected := true |}))
  = 2%nat /\
  count is_publish
    (snd (every (PF := binary64) 10 (do_repeat Sample.cfg)
            [Sample.tick 0 (Sample.answers 500 "busy") 1;
             Sample.tick 1 (Sample.answers 200 Sample.body) 11]
            0 {| mqtt_client := 1; mqtt_connected := true |}))
  = 1%nat.
Proof.
  split; [reflexivity|]. repeat split; reflexivity.
Qed.

(** ** Publishing and the connected flag (C8, C10) *)

(** C8. In a cycle whose fetch and parse succeed while the connected flag is
    false, the task returns normally, makes no publish call, logs the
    warning, and runs the connect sequence exactly once (one client made,
    one connect call), which leaves the flag as that call decides. *)
Theorem publish_skipped_when_not_connected :
  forall (PF : PyFloat) (cfg : Config) (c : Cycle) (w : Worker)
         (text : string) (allmetrics : list Metric) (linecnt : Z),
    http c = HttpResponse 200 text ->
    parse text = Ok (allmetrics, linecnt) ->
    mqtt_connected w = false ->
    let out := do_repeat cfg c w in
    fst (fst out) = Ok tt /\
    count is_publish (snd out) = 0%nat /\
    In reconnect_warning (snd out) /\
    count is_warning (snd out) = 1%nat /\
    count is_connect (snd out) = 1%nat /\
    snd (fst out) = snd (fst (mqtt_connect cfg (connect c) w)) /\
    mqtt_client (snd (fst out)) = S (mqtt_client w) /\
    mqtt_connected (snd (fst out)) =
      match connect c with None => true | Some _ => false end.
Proof.
  intros PF cfg c w text allmetrics linecnt H Hp Hc out. subst out.
  rewrite (do_repeat_reconnect _ _ _ _ _ _ H Hp Hc), mqtt_connect_eq.
  cbn [fst snd mqtt_client mqtt_connected].
  split; [reflexivity|].
  split; [destruct (connect c); reflexivity|].
  split; [cbn; tauto|].
  split; [destruct (connect c); reflexivity|].
  split; [destruct (connect c); reflexivity|].
  repeat split.
Qed.

Lemma publish_skipped_when_not_connected_witness :
  let out :=
    do_repeat (PF := binary64) Sample.cfg (Sample.answers 200 Sample.body)
      blank in
  fst (fst out) = Ok tt /\
  count is_publish (snd out) = 0%nat /\
  In reconnect_warning (snd out) /\
  count is_warning (snd out) = 1%nat /\
  count is_connect (snd out) = 1%nat /\
  snd (fst out) =
    snd (fst (mqtt_connect Sample.cfg
                (connect (Sample.answers 200 Sample.body)) blank)) /\
  mqtt_client (snd (fst out)) = 1%nat /\
  mqtt_connected (snd (fst out)) = true.
Proof.
  eapply (publish_skipped_when_not_connected binary64 Sample.cfg
            (Sample.answers 200 Sample.body) blank Sample.body).
  - reflexivity.
  - reflexivity.
  - reflexivity.
Defined.

(** C10. The connect sequence sets the flag to true when the connect call
    returns and to false when it raises. Nothing else assigns it: a cycle
    that makes no connect call leaves the worker as it was, and a cycle that
    starts with the flag set makes no connect call and leaves the worker as
    it was, whether its publish returns or raises. So from a set flag on,
    the flag stays set through any number of passes of the loop, whatever
    the device and the broker answer, and a connect call is only ever made
    in a cycle that starts with the flag false. *)
Theorem connected_flag_written_by_connect_only :
  forall (PF : PyFloat) (cfg : Config),
    (forall (answer : option exn) (w : Worker),
        mqtt_connected (snd (fst (mqtt_connect cfg answer w))) =
        match answer with None => true | Some _ => false end) /\
    (forall (c : Cycle) (w : Worker),
        count is_connect (snd (do_repeat cfg c w)) = 0%nat ->
        snd (fst (do_repeat cfg c w)) = w) /\
    (forall (c : Cycle) (w : Worker),
        mqtt_connected w = true ->
        snd (fst (do_repeat cfg c w)) = w /\
        count is_connect (snd (do_repeat cfg c w)) = 0%nat) /\
    (forall (delay : Z) (ticks : list Tick) (next_time : Z) (w : Worker),
        mqtt_connected w = true ->
        snd (fst (every delay (do_repeat cfg) ticks next_time w)) = w /\
        count is_connect
          (snd (every delay (do_repeat cfg) ticks next_time w)) = 0%nat) /\
    (forall (c : Cycle) (w : Worker),
        count is_connect (snd (do_repeat cfg c w)) <> 0%nat ->
        mqtt_connected w = false).
Proof.
  intros PF cfg.
  assert (Hset : forall (c : Cycle) (w : Worker),
             mqtt_connected w = true ->
             snd (fst (do_repeat cfg c w)) = w /\
             count is_connect (snd (do_repeat cfg c w)) = 0%nat).
  { intros c w Hw.
    destruct (do_repeat_cases cfg c w)
      as [(r & tr & E & Hconn & _) | (Hc & _)]; [|congruence].
    rewrite E. split; [reflexivity|exact Hconn]. }
  split; [|split; [|split; [|split]]].
  - intros answer w. rewrite mqtt_connect_eq. reflexivity.
  - intros c w Hcount.
    destruct (do_repeat_cases cfg c w)
      as [(r & tr & E & _) | (Hc & text & ms & n & H & Hp)].
    + rewrite E. reflexivity.
    + rewrite (do_repeat_reconnect _ _ _ _ _ _ H Hp Hc), mqtt_connect_eq
        in Hcount.
      destruct (connect c); discriminate Hcount.
  - exact Hset.
  - intros delay ticks next_time w Hw. now apply every_keeps_connected.
  - intros c w Hcount. destruct (mqtt_connected w) eqn:Hw; [|reflexivity].
    destruct (Hset c w Hw) as [_ H0]. contradiction.
Qed.

Lemma connected_flag_written_by_connect_only_witness :
  snd (fst (every (PF := binary64) 10 (do_repeat Sample.cfg)
              [Sample.tick 0
                 {| http := HttpResponse 200 Sample.body;
                    connect := Some ConnectionError;
                    publish := Some (OtherException "OSError") |} 1;
               Sample.tick 1 (Sample.answers 500 "busy") 11]
              0 {| mqtt_client := 1; mqtt_connected := true |}))
  = {| mqtt_client := 1; mqtt_connected := true |} /\
  count is_connect
    (snd (every (PF := binary64) 10 (do_repeat Sample.cfg)
            [Sample.tick 0
               {| http := HttpResponse 200 Sample.body;
                  connect := Some ConnectionError;
                  publish := Some (OtherException "OSError") |} 1;
             Sample.tick 1 (Sample.answers 500 "busy") 11]
            0 {| mqtt_client := 1; mqtt_connected := true |}))
  = 0%nat.
Proof.
  apply (proj1 (proj2 (proj2 (proj2
           (connected_flag_written_by_connect_only binary64 Sample.cfg))))).
  reflexivity.
Defined.

(** * Further properties of the parser *)

Section ParserMore.

Context {PF : PyFloat}.

Lemma scaled_value_raises (rawvalue multiplier : string) (e : exn) :
  scaled_value rawvalue multiplier = Raise e -> e = ValueError.
Proof.
  unfold scaled_value, to_float.
  destruct (negb (multiplier =? "1.000000")%string);
    destruct (float_of_str rawvalue); cbn [rbind];
    try destruct (float_of_str multiplier); cbn [rbind]; congruence.
Qed.

Lemma nth_error_length_some {A : Type} (l : list A) (i : nat) :
  (i < List.length l)%nat -> exists x, nth_error l i = Some x.
Proof.
  intros H. destruct (nth_error l i) as [x|] eqn:E; [now exists x|].
  apply nth_error_None in E. lia.
Qed.

(** When a line has a metric. A line yields a metric exactly when it has at
    least seven fields and its value and multiplier convert; a line with
    fewer than six fields raises IndexError; and whatever a line raises is
    IndexError or ValueError. *)
Theorem process_line_ok_iff (line : string) :
  let v := Str.split Str.semicolon line in
  (is_ok (process_line line) = true <->
   (7 <= List.length v)%nat /\
   exists rawvalue multiplier,
     nth_error v 3 = Some rawvalue /\ nth_error v 5 = Some multiplier /\
     is_ok (scaled_value rawvalue multiplier) = true) /\
  ((List.length v < 6)%nat -> process_line line = Raise IndexError) /\
  (forall e, process_line line = Raise e -> e = IndexError \/ e = ValueError).
Proof.
  intros v. split; [split|split].
  - intros H. destruct (process_line line) as [m|e] eqn:E; [|discriminate].
    apply process_line_inv in E.
    destruct E as (f0 & f1 & f2 & f3 & f4 & f5 & f6 & x & Hf & Hx & _).
    cbn zeta in Hf. fold v in Hf.
    destruct Hf as (_ & _ & _ & H3 & _ & H5 & H6).
    split.
    + assert (6 < List.length v)%nat by (apply nth_error_Some; congruence).
      lia.
    + exists f3, f5. rewrite Hx. repeat split; assumption.
  - intros (Hlen & f3 & f5 & H3 & H5 & Hx).
    destruct (nth_error_length_some v 0) as [f0 H0]; [lia|].
    destruct (nth_error_length_some v 1) as [f1 H1]; [lia|].
    destruct (nth_error_length_some v 2) as [f2 H2]; [lia|].
    destruct (nth_error_length_some v 4) as [f4 H4]; [lia|].
    destruct (nth_error_length_some v 6) as [f6 H6]; [lia|].
    rewrite (process_line_fields line _ _ _ _ _ _ _ H0 H1 H2 H3 H4 H5 H6).
    destruct (scaled_value f3 f5); [reflexivity|discriminate].
  - intros Hlen. unfold process_line, index. fold v.
    destruct (nth_error v 3) as [f3|] eqn:H3; cbn [rbind]; [|reflexivity].
    destruct (nth_error v 5) as [f5|] eqn:H5; cbn [rbind]; [|reflexivity].
    assert (5 < List.length v)%nat by (apply nth_error_Some; congruence).
    lia.
  - intros e. unfold process_line, index. fold v.
    destruct (nth_error v 3) as [f3|]; cbn [rbind]; [|left; congruence].
    destruct (nth_error v 5) as [f5|]; cbn [rbind]; [|left; congruence].
    destruct (scaled_value f3 f5) as [x|e'] eqn:Hx; cbn [rbind].
    + destruct (nth_error v 6); cbn [rbind]; [|left; congruence].
      destruct (nth_error v 1); cbn [rbind]; [|left; congruence].
      destruct (nth_error v 0); cbn [rbind]; [|left; congruence].
      destruct (nth_error v 2); cbn [rbind]; [|left; congruence].
      destruct (nth_error v 4); cbn [rbind]; [discriminate|left; congruence].
    + intros E. injection E as <-. right.
      exact (scaled_value_raises _ _ _ Hx).
Qed.

(** Fields past the seventh play no part: two lines with the same first
    seven fields have the same outcome. *)
Theorem process_line_first_seven_fields (line1 line2 : string) :
  firstn 7 (Str.split Str.semicolon line1)
  = firstn 7 (Str.split Str.semicolon line2) ->
  process_line line1 = process_line line2.
Proof.
  intros H.
  assert (Hn : forall i, (i < 7)%nat ->
             nth_error (Str.split Str.semicolon line1) i
             = nth_error (Str.split Str.semicolon line2) i).
  { intros i Hi.
    pose proof (nth_error_firstn 7 (Str.split Str.semicolon line1) i) as E1.
    pose proof (nth_error_firstn 7 (Str.split Str.semicolon line2) i) as E2.
    destruct (Nat.ltb_spec i 7); [|lia]. rewrite <- E1, <- E2, H.
    reflexivity. }
  unfold process_line, index.
  rewrite (Hn 3%nat), (Hn 5%nat), (Hn 6%nat), (Hn 1%nat), (Hn 0%nat),
    (Hn 2%nat), (Hn 4%nat) by lia.
  reflexivity.
Qed.

End ParserMore.

Lemma process_line_first_seven_fields_witness :
  process_line (PF := binary64) "1;d;F;5.0;x;1.000000;mA;2;1;2;1"
  = process_line (PF := binary64) "1;d;F;5.0;x;1.000000;mA".
Proof.
  apply (process_line_first_seven_fields
           "1;d;F;5.0;x;1.000000;mA;2;1;2;1" "1;d;F;5.0;x;1.000000;mA").
  reflexivity.
Defined.

(** ** The description loses its quotes *)

Lemma lstrip_head (c : ascii) (s : string) :
  forall s', Str.lstrip c s <> String c s'.
Proof.
  induction s as [|a s IH]; intros s'; cbn; [discriminate|].
  destruct (Ascii.eqb_spec a c) as [->|Hne]; [apply IH|].
  intros E. injection E as E _. contradiction.
Qed.

Lemma rstrip_head (c : ascii) (s : string) :
  (forall s', s <> String c s') -> forall s', Str.rstrip c s <> String c s'.
Proof.
  intros H s'. destruct s as [|a s]; cbn; [discriminate|].
  assert (Hne : a <> c) by (intros ->; exact (H s eq_refl)).
  destruct (Str.rstrip c s); [|intros E; injection E as E _; contradiction].
  destruct (Ascii.eqb_spec a c); [contradiction|].
  intros E. injection E as E _. contradiction.
Qed.

Lemma rstrip_last (c : ascii) (s : string) :
  forall s', Str.rstrip c s <> s' ++ String c "".
Proof.
  induction s as [|a s IH]; intros s'; cbn.
  - destruct s'; discriminate.
  - destruct (Str.rstrip c s) as [|b r] eqn:E.
    + destruct (Ascii.eqb_spec a c) as [->|Hne].
      * destruct s'; discriminate.
      * destruct s' as [|a' s']; cbn.
        -- intros E'. injection E' as E'. contradiction.
        -- destruct s'; discriminate.
    + destruct s' as [|a' s']; cbn; [discriminate|].
      intros E'. injection E' as _ E'. exact (IH s' E').
Qed.

(** Stripping is the identity on a text with no quote at either end. *)
Lemma lstrip_id (c : ascii) (s : string) :
  (forall s', s <> String c s') -> Str.lstrip c s = s.
Proof.
  intros H. destruct s as [|a s]; cbn; [reflexivity|].
  destruct (Ascii.eqb_spec a c) as [->|]; [|reflexivity].
  now destruct (H s).
Qed.

Lemma rstrip_id (c : ascii) (s : string) :
  (forall s', s <> s' ++ String c "") -> Str.rstrip c s = s.
Proof.
  induction s as [|a s IH]; intros H; cbn; [reflexivity|].
  rewrite IH.
  - destruct s as [|b s]; [|reflexivity].
    destruct (Ascii.eqb_spec a c) as [->|]; [|reflexivity].
    now destruct (H ""%string).
  - intros s' ->. exact (H (String a s') eq_refl).
Qed.

Lemma rstrip_app_char (c : ascii) (s : string) :
  Str.rstrip c (s ++ String c "") = Str.rstrip c s.
Proof.
  induction s as [|a s IH]; cbn.
  - now rewrite Ascii.eqb_refl.
  - now rewrite IH.
Qed.

(** The description of a metric is the fifth field without the double quotes
    around it: it neither starts nor ends with a double quote, a field with
    no quote at either end is kept as it is, and such a text put between
    quotes comes out as the text. Quotes inside are kept. *)
Theorem description_unquoted :
  forall (PF : PyFloat) (line : string) (m : Metric),
    process_line line = Ok m ->
    exists field : string,
      nth_error (Str.split Str.semicolon line) 4 = Some field /\
      m_description m = Str.strip Str.dquote field /\
      (forall s, m_description m <> String Str.dquote s) /\
      (forall s, m_description m <> s ++ String Str.dquote "") /\
      ((forall s, field <> String Str.dquote s) ->
       (forall s, field <> s ++ String Str.dquote "") ->
       m_description m = field) /\
      (forall text : string,
          field = String Str.dquote (text ++ String Str.dquote "") ->
          (forall s, text <> String Str.dquote s) ->
          (forall s, text <> s ++ String Str.dquote "") ->
          m_description m = text).
Proof.
  intros PF line m Hm. apply process_line_inv in Hm.
  destruct Hm as (f0 & f1 & f2 & f3 & f4 & f5 & f6 & x & Hf & _ & ->).
  cbn zeta in Hf. destruct Hf as (_ & _ & _ & _ & H4 & _).
  exists f4. cbn [m_description]. unfold Str.strip.
  split; [exact H4|]. split; [reflexivity|].
  split; [apply rstrip_head, lstrip_head|].
  split; [apply rstrip_last|]. split.
  - intros Hh Hl. rewrite (lstrip_id _ _ Hh). now apply rstrip_id.
  - intros text -> Hh Hl. cbn [Str.lstrip].
    replace (Ascii.eqb Str.dquote Str.dquote) with true
      by (symmetry; apply Ascii.eqb_refl).
    destruct text as [|a text].
    + reflexivity.
    + assert (Hne : a <> Str.dquote) by (intros ->; exact (Hh text eq_refl)).
      cbn [append Str.lstrip].
      destruct (Ascii.eqb_spec a Str.dquote); [contradiction|].
      change (String a (text ++ String Str.dquote ""))
        with (String a text ++ String Str.dquote "").
      rewrite rstrip_app_char. now apply rstrip_id.
Qed.

Lemma description_unquoted_witness :
  exists field : string,
    nth_error (Str.split Str.semicolon Sample.body) 4 = Some field /\
    Str.strip Str.dquote field = "AC Netz Frequenz".
Proof.
  assert (Hm : exists m : Metric,
             process_line (PF := binary64) Sample.body = Ok m
             /\ m_description m = "AC Netz Frequenz").
  { eexists. split; [reflexivity|reflexivity]. }
  destruct Hm as (m & Hm & Hd).
  destruct (description_unquoted binary64 Sample.body m Hm)
    as (field & H4 & Hs & _).
  exists field. split; [exact H4|]. now rewrite <- Hs.
Defined.

(** ** What the metrics of a body look like *)

Lemma Forall2_right {A B : Type} (R : A -> B -> Prop) (P : B -> Prop)
  (l1 : list A) (l2 : list B) :
  (forall a b, R a b -> P b) -> Forall2 R l1 l2 -> Forall P l2.
Proof.
  intros H HF. induction HF; constructor; eauto.
Qed.

Lemma splitlines_nil (text : string) :
  Str.splitlines text = [] <-> text = ""%string.
Proof.
  split; [|intros ->; reflexivity].
  destruct text as [|c s]; [reflexivity|]. cbn.
  destruct (Str.is_linebreak c).
  - destruct s; [discriminate|].
    destruct (Ascii.eqb c Str.CR && Ascii.eqb a Str.LF)%bool; discriminate.
  - destruct (Str.splitlines s); discriminate.
Qed.

(** No metric leaves the parser in milliamperes or hours: the unit of a
    metric is never "mA" or "h", and its unit tag is never "mA", "h" or
    "kWh". *)
Theorem metrics_in_base_units :
  forall (PF : PyFloat) (text : string) (ms : list Metric) (n : Z),
    parse text = Ok (ms, n) ->
    Forall (fun m => m_unit m <> "mA" /\ m_unit m <> "h" /\
                     m_unit_zabbix m <> "mA" /\ m_unit_zabbix m <> "h" /\
                     m_unit_zabbix m <> "kWh") ms.
Proof.
  intros PF text ms n H. unfold parse in H. apply process_lines_ok in H.
  destruct H as (new & -> & _ & HF). cbn [app].
  revert HF. apply Forall2_right. intros line m Hm.
  apply process_line_inv in Hm.
  destruct Hm as (f0 & f1 & f2 & f3 & f4 & f5 & f6 & x & _ & _ & ->).
  cbn [m_unit m_unit_zabbix]. rewrite normalize_eq.
  cbn [unit unit_zabbix].
  destruct (String.eqb_spec f6 "mA") as [->|HmA];
    [destruct (is_timestamp f1); repeat split; discriminate|].
  destruct (String.eqb_spec f6 "h") as [->|Hh];
    [destruct (is_timestamp f1); repeat split; discriminate|].
  destruct (String.eqb_spec f6 "kWh") as [->|HkWh];
    [destruct (is_timestamp f1); repeat split; discriminate|].
  destruct (is_timestamp f1); repeat split; try assumption; discriminate.
Qed.

Lemma metrics_in_base_units_witness :
  Forall (fun m : Metric =>
            m_unit m <> "mA" /\ m_unit m <> "h" /\
            m_unit_zabbix m <> "mA" /\ m_unit_zabbix m <> "h" /\
            m_unit_zabbix m <> "kWh")
    (fst (match parse (PF := binary64)
                  ("1;d;F;5.0;x;1.000000;mA"
                     ++ String Str.LF "2;e;F;2.0;y;2.5;kWh") with
          | Ok out => out
          | Raise _ => ([], 0)
          end)).
Proof.
  destruct (parse (PF := binary64)
              ("1;d;F;5.0;x;1.000000;mA"
                 ++ String Str.LF "2;e;F;2.0;y;2.5;kWh"))
    as [[ms n]|e] eqn:E.
  - exact (metrics_in_base_units binary64 _ ms n E).
  - constructor.
Defined.

(** The empty body, and no other, parses to no metrics: every other body
    either fails or yields at least one metric. *)
Theorem parse_no_metrics_iff_empty_body :
  forall (PF : PyFloat) (text : string) (n : Z),
    parse text = Ok ([], n) <-> text = ""%string /\ n = 0.
Proof.
  intros PF text n. split.
  - intros H. unfold parse in H. apply process_lines_ok in H.
    destruct H as (new & Hnew & -> & HF). cbn [app] in Hnew. subst new.
    inversion HF as [Hl|]. symmetry in Hl. apply splitlines_nil in Hl.
    subst text. split; reflexivity.
  - intros [-> ->]. reflexivity.
Qed.

(** * Further properties of the worker *)

Section WorkerMore.

Context {PF : PyFloat}.

(** [do_repeat] in closed form: its outcome, the worker it leaves and its
    trace, by the answers of the device and the broker. *)
Lemma do_repeat_eq (cfg : Config) (c : Cycle) (w : Worker) :
  do_repeat cfg c w =
  match http c with
  | HttpRaises e =>
      if is_ConnectionError e
      then (Ok tt, w,
            (fetch_trace cfg
               ++ [Log ERROR "received error during http fetch: {}"])%list)
      else (Raise e, w, fetch_trace cfg)
  | HttpResponse status_code text =>
      if status_code =? 200 then
        match parse text with
        | Raise e => (Raise e, w, fetch_trace cfg)
        | Ok (allmetrics, linecnt) =>
            if mqtt_connected w then
              (match publish c with Some e => Raise e | None => Ok tt end, w,
               (fetch_trace cfg
                  ++ [Log INFO "processed {} values";
                      MqttPublish (mqtt_topic cfg) allmetrics])%list)
            else
              (Ok tt, snd (fst (mqtt_connect cfg (connect c) w)),
               (fetch_trace cfg
                  ++ [Log INFO "processed {} values"; reconnect_warning]
                  ++ snd (mqtt_connect cfg (connect c) w))%list)
        end
      else (Raise (Error ("error fetching data: " ++ text)), w,
            fetch_trace cfg)
  end.
Proof.
  destruct (http c) as [e|status_code text] eqn:H.
  - destruct (is_ConnectionError e) eqn:He.
    + destruct e; try discriminate.
      exact (do_repeat_connection_error _ _ _ H).
    + exact (do_repeat_http_raises _ _ _ _ H He).
  - destruct (Z.eqb_spec status_code 200) as [->|Hs].
    + destruct (parse text) as [[allmetrics linecnt]|e] eqn:Hp.
      * destruct (mqtt_connected w) eqn:Hc.
        -- exact (do_repeat_publish _ _ _ _ _ _ H Hp Hc).
        -- exact (do_repeat_reconnect _ _ _ _ _ _ H Hp Hc).
      * exact (do_repeat_parse_raises _ _ _ _ _ H Hp).
    + exact (do_repeat_not_200 _ _ _ _ _ H Hs).
Qed.

Lemma is_ConnectionError_false (e : exn) :
  is_ConnectionError e = false <-> e <> ConnectionError.
Proof. destruct e; cbn; split; congruence. Qed.

(** When the cycle task raises, and what. It raises exactly when the request
    raises something other than a connection error, when the status is not
    200, when the body does not parse, or when the publish of a connected
    worker raises. A connection error of the request and a failure of the
    reconnect never leave the task. *)
Theorem do_repeat_raises_iff (cfg : Config) (c : Cycle) (w : Worker)
  (e : exn) :
  fst (fst (do_repeat cfg c w)) = Raise e <->
  (http c = HttpRaises e /\ e <> ConnectionError)
  \/ (exists status_code text,
        http c = HttpResponse status_code text /\ status_code <> 200
        /\ e = Error ("error fetching data: " ++ text))
  \/ (exists text, http c = HttpResponse 200 text /\ parse text = Raise e)
  \/ (exists text allmetrics linecnt,
        http c = HttpResponse 200 text
        /\ parse text = Ok (allmetrics, linecnt)
        /\ mqtt_connected w = true /\ publish c = Some e).
Proof.
  rewrite do_repeat_eq. split.
  - destruct (http c) as [e'|status_code text].
    + destruct (is_ConnectionError e') eqn:He; cbn [fst]; [discriminate|].
      intros E. injection E as ->. left.
      split; [reflexivity|now apply is_ConnectionError_false].
    + destruct (Z.eqb_spec status_code 200) as [->|Hs].
      * destruct (parse text) as [[allmetrics linecnt]|e'] eqn:Hp.
        -- destruct (mqtt_connected w) eqn:Hc; cbn [fst]; [|discriminate].
           destruct (publish c) as [e'|] eqn:Hpub; [|discriminate].
           intros E. injection E as ->. right. right. right.
           now exists text, allmetrics, linecnt.
        -- cbn [fst]. intros E. injection E as ->. right. right. left.
           now exists text.
      * cbn [fst]. intros E. injection E as <-. right. left.
        now exists status_code, text.
  - intros [(H & He) | [(s & text & H & Hs & ->) | [(text & H & Hp)
      | (text & ms & n & H & Hp & Hc & Hpub)]]]; rewrite H.
    + apply is_ConnectionError_false in He. now rewrite He.
    + destruct (Z.eqb_spec s 200); [contradiction|reflexivity].
    + cbn. now rewrite Hp.
    + cbn. now rewrite Hp, Hc, Hpub.
Qed.

Lemma requested_app (a b : list event) :
  requested (a ++ b) = (requested a ++ requested b)%list.
Proof.
  induction a as [|ev a IH]; [reflexivity|].
  destruct ev; cbn; rewrite ?IH; reflexivity.
Qed.

Lemma published_app (a b : list event) :
  published (a ++ b) = (published a ++ published b)%list.
Proof.
  induction a as [|ev a IH]; [reflexivity|].
  destruct ev; cbn; rewrite ?IH; reflexivity.
Qed.

(** One request and at most one publish per cycle. Every call of the task
    sends exactly one request, to the URL of the configured host with the
    fixed object range and the configured credentials. It publishes at most
    once: the metrics of the whole body, to the configured topic, when the
    status is 200, the body parses and the worker is connected, and nothing
    in every other case. *)
Theorem one_request_at_most_one_publish (cfg : Config) (c : Cycle)
  (w : Worker) :
  requested (snd (do_repeat cfg c w)) =
    [("http://" ++ benning_host cfg
        ++ "/getallentries.cgi?firstOid=10000&lastOid=20000",
      benning_username cfg, benning_password cfg)] /\
  published (snd (do_repeat cfg c w)) =
    match http c with
    | HttpResponse status_code text =>
        match parse text with
        | Ok (allmetrics, _) =>
            if (status_code =? 200) && mqtt_connected w
            then [(mqtt_topic cfg, allmetrics)]
            else []
        | Raise _ => []
        end
    | HttpRaises _ => []
    end.
Proof.
  rewrite do_repeat_eq, !mqtt_connect_eq.
  destruct (http c) as [e|status_code text].
  - destruct (is_ConnectionError e); split; reflexivity.
  - destruct (Z.eqb_spec status_code 200) as [->|Hs].
    + destruct (parse text) as [[allmetrics linecnt]|e];
        [|split; reflexivity].
      destruct (mqtt_connected w); cbn [andb snd]; [split; reflexivity|].
      destruct (connect c); split; reflexivity.
    + destruct (parse text) as [[allmetrics linecnt]|e]; split; reflexivity.
Qed.

(** Lazy reconnect. A cycle that finds the worker disconnected publishes
    nothing, even when its reconnect succeeds; the worker is connected from
    then on, and the next cycle that fetches and parses publishes its own
    metrics, and only those. *)
Theorem reconnect_then_publish (cfg : Config) (c1 c2 : Cycle) (w : Worker)
  (text1 text2 : string) (ms1 ms2 : list Metric) (n1 n2 : Z) :
  mqtt_connected w = false ->
  http c1 = HttpResponse 200 text1 -> parse text1 = Ok (ms1, n1) ->
  connect c1 = None ->
  http c2 = HttpResponse 200 text2 -> parse text2 = Ok (ms2, n2) ->
  let w1 := snd (fst (do_repeat cfg c1 w)) in
  published (snd (do_repeat cfg c1 w)) = [] /\
  mqtt_connected w1 = true /\
  published (snd (do_repeat cfg c2 w1)) = [(mqtt_topic cfg, ms2)] /\
  count is_connect (snd (do_repeat cfg c2 w1)) = 0%nat.
Proof.
  intros Hw H1 Hp1 Hc1 H2 Hp2 w1. subst w1.
  rewrite (do_repeat_eq cfg c1 w), H1, Hp1, Hw, mqtt_connect_eq, Hc1.
  cbn [Z.eqb Pos.eqb fst snd].
  split; [reflexivity|]. split; [reflexivity|].
  rewrite do_repeat_eq, H2, Hp2. cbn [Z.eqb Pos.eqb mqtt_connected snd].
  split; reflexivity.
Qed.

End WorkerMore.

Lemma reconnect_then_publish_witness :
  exists ms : list Metric,
    parse (PF := binary64) Sample.body = Ok (ms, 1) /\
    published
      (snd (do_repeat Sample.cfg (Sample.answers 200 Sample.body)
              (snd (fst (do_repeat Sample.cfg
                           (Sample.answers 200 Sample.body) blank)))))
    = [(mqtt_topic Sample.cfg, ms)].
Proof.
  eexists. split; [reflexivity|].
  refine (proj1 (proj2 (proj2
            (reconnect_then_publish Sample.cfg
               (Sample.answers 200 Sample.body)
               (Sample.answers 200 Sample.body) blank
               Sample.body Sample.body _ _ 1 1
               eq_refl eq_refl _ eq_refl eq_refl _)))).
  - reflexivity.
  - reflexivity.
Defined.

(** * Further properties of the scheduler *)

Section SchedulerMore.

Context {PF : PyFloat}.

(** An interval of zero ends the worker in its first pass: the task is
    called once, whatever it raised is logged, and the pass then raises
    ZeroDivisionError, which nothing catches; no later pass runs. *)
Theorem zero_interval_ends_loop (task : Cycle -> Act NoneType) (t : Tick)
  (ticks : list Tick) (next_time : Z) (w : Worker) :
  every 0 task (t :: ticks) next_time w =
  (Raise ZeroDivisionError,
   snd (fst (task (cycle t) w)),
   Sleep (Z.max 0 (next_time - now_before t)) :: Call ::
     (snd (task (cycle t) w)
        ++ match fst (fst (task (cycle t) w)) with
           | Raise e =>
               [LogException "Problem while executing repetitive task." e]
           | Ok _ => []
           end)%list).
Proof.
  rewrite every_cons, every_iteration_eq. reflexivity.
Qed.

(** Every connect call is made on a client of its own: over any run of the
    loop the number of clients made grows by the number of connect calls,
    so a worker started by the constructor has made as many clients as it
    has called connect, the first of them before the first pass. *)
Lemma do_repeat_clients (cfg : Config) (c : Cycle) (w : Worker) :
  mqtt_client (snd (fst (do_repeat cfg c w))) =
  (mqtt_client w + count is_connect (snd (do_repeat cfg c w)))%nat.
Proof.
  rewrite do_repeat_eq, !mqtt_connect_eq.
  destruct (http c) as [e|status_code text].
  - destruct (is_ConnectionError e); cbn; lia.
  - destruct (status_code =? 200); [|cbn; lia].
    destruct (parse text) as [[allmetrics linecnt]|e]; [|cbn; lia].
    destruct (mqtt_connected w); [cbn; lia|].
    destruct (connect c); cbn; lia.
Qed.

Lemma every_clients (cfg : Config) (delay : Z) (ticks : list Tick) :
  forall (next_time : Z) (w : Worker),
    mqtt_client (snd (fst (every delay (do_repeat cfg) ticks next_time w))) =
    (mqtt_client w
     + count is_connect
         (snd (every delay (do_repeat cfg) ticks next_time w)))%nat.
Proof.
  induction ticks as [|t ticks IH]; intros next_time w; [cbn; lia|].
  rewrite every_cons, every_iteration_eq.
  assert (Hpass : forall r : result NoneType,
             count is_connect
               (Sleep (Z.max 0 (next_time - now_before t)) :: Call ::
                  (snd (do_repeat cfg (cycle t) w)
                     ++ match r with
                        | Raise e =>
                            [LogException
                               "Problem while executing repetitive task." e]
                        | Ok _ => []
                        end)%list)
             = count is_connect (snd (do_repeat cfg (cycle t) w))).
  { intros r.
    change (count is_connect
              (snd (do_repeat cfg (cycle t) w)
                 ++ match r with
                    | Raise e =>
                        [LogException
                           "Problem while executing repetitive task." e]
                    | Ok _ => []
                    end)%list
            = count is_connect (snd (do_repeat cfg (cycle t) w))).
    rewrite count_app. destruct r; cbn; lia. }
  destruct (advance delay next_time (now_after t)) as [n|e]; cbn [fst snd].
  - rewrite IH, count_app, Hpass, do_repeat_clients. lia.
  - rewrite Hpass. apply do_repeat_clients.
Qed.

Theorem one_client_per_connect (cfg : Config) (answer : option exn)
  (start : Z) (ticks : list Tick) :
  let run := BenningSolarMetricsWorker cfg answer start ticks blank in
  mqtt_client (snd (fst run)) = count is_connect (snd run) /\
  (1 <= count is_connect (snd run))%nat /\
  hd_error (snd run) = Some (MqttConnect (mqtt_host cfg) 1883 60).
Proof.
  cbn zeta. unfold BenningSolarMetricsWorker, bind.
  rewrite mqtt_connect_eq.
  pose proof (every_clients cfg (repeat cfg) ticks start
                {| mqtt_client := S (mqtt_client blank);
                   mqtt_connected :=
                     match answer with None => true | Some _ => false end |})
    as H.
  destruct (every (repeat cfg) (do_repeat cfg) ticks start _)
    as [[r w2] t2].
  cbn [fst snd mqtt_client blank] in *.
  rewrite count_app, H.
  destruct answer; cbn; repeat split; lia.
Qed.

End SchedulerMore.

(** * The start of the process *)

(** The worker always logs to the console. Whatever the command line and
    whether or not standard input is a terminal, the log goes through
    [logging.basicConfig] at level DEBUG with [-d] and INFO without; the
    syslog handler is never installed. *)
Theorem logging_always_to_console :
  forall (debug isatty : bool) (platform basename : string),
    Startup.main_logging debug isatty platform basename =
    Startup.BasicConfig (if debug then Startup.DEBUG else Startup.INFO)
      "%(asctime)s %(levelname)s:%(message)s" /\
    forall (level : Z) (address format : string),
      Startup.main_logging debug isatty platform basename
      <> Startup.SysLog level address format.
Proof.
  intros debug isatty platform basename.
  assert (E : Startup.main_logging debug isatty platform basename =
              Startup.BasicConfig
                (if debug then Startup.DEBUG else Startup.INFO)
                "%(asctime)s %(levelname)s:%(message)s")
    by (destruct debug, isatty; reflexivity).
  split; [exact E|]. intros level address format. rewrite E. discriminate.
Qed.
